(** * A file-sharing HTTP service: the request handlers of [server.js]

    The development embeds the handlers of [src/server.js] (an Express
    application over a JSON document [files.json] and a directory of
    uploaded blobs) as executable functions in a state-and-exception monad,
    and proves properties of the handlers about them.

    Conventions of the embedding.
    - A JavaScript value obtained from [JSON.parse] is a [json]; a value
      that may also be [undefined] is a [value] ([None] is [undefined]).
    - A piece of text handed to [JSON.parse] is represented by what the
      parser makes of it ([text]): either it is rejected, or it denotes
      one [json] value.  [JSON.stringify] of a [json] is the text that
      denotes it.
    - JSON numbers are integers ([Z]); the service itself only produces
      byte counts.
    - The file system is the metadata document, whether it can currently
      be written, and the blobs by path.  Reading the document can fail
      and writing it can fail; a failed write leaves the document as it
      was, and removing a blob that exists succeeds.
    - Every handler returns its outcome, the file system it leaves behind
      and the trace of the file-system mutations and console messages it
      performed, in program order. *)

From stdpp Require Import gmap strings list pretty.

Open Scope string_scope.
Open Scope list_scope.

(** ** JavaScript values *)

#[warnings="-register-all"]
Inductive json : Type :=
| JNull
| JBool (b : bool)
| JNum (n : Z)
| JStr (s : string)
| JArr (items : list json)
| JObj (props : list (string * json)).

(** [None] stands for [undefined]. *)
Definition value : Type := option json.

Inductive exn : Type :=
| TypeError
| SyntaxError
| SystemError
| MulterError (code : string).

Inductive Res (A : Type) : Type :=
| Ok (a : A)
| Throw (e : exn).
Arguments Ok {A} a.
Arguments Throw {A} e.

(** Own property of an object, first binding of the key. *)
Fixpoint assoc (k : string) (props : list (string * json)) : value :=
  match props with
  | [] => None
  | (k', v) :: rest => if String.eqb k k' then Some v else assoc k rest
  end.

(** [j.k] for a non-null [j]: arrays, strings, numbers and booleans from
    [JSON.parse] have none of the properties the handlers read. *)
Definition field (k : string) (j : json) : value :=
  match j with
  | JObj props => assoc k props
  | _ => None
  end.

(** [v.k]: reading a property of [undefined] or [null] throws. *)
Definition get_prop (v : value) (k : string) : Res value :=
  match v with
  | None | Some JNull => Throw TypeError
  | Some j => Ok (field k j)
  end.

(** [a === b] where [a] and [b] come from different [JSON.parse] calls (or
    one of them is a string of the route): primitives compare by value,
    arrays and objects are distinct references. *)
Definition strict_eq (a b : value) : bool :=
  match a, b with
  | None, None => true
  | Some JNull, Some JNull => true
  | Some (JBool x), Some (JBool y) => Bool.eqb x y
  | Some (JNum x), Some (JNum y) => Z.eqb x y
  | Some (JStr x), Some (JStr y) => String.eqb x y
  | _, _ => false
  end.

(** [!!v] *)
Definition truthy (v : value) : bool :=
  match v with
  | None | Some JNull => false
  | Some (JBool b) => b
  | Some (JNum n) => negb (Z.eqb n 0)
  | Some (JStr s) => negb (String.eqb s "")
  | Some (JArr _) | Some (JObj _) => true
  end.

(** An object literal as [JSON.stringify] renders it: properties whose
    value is [undefined] are left out.  The handlers only ever hand their
    object literals to [JSON.stringify] ([writeFiles], [res.json]). *)
Fixpoint obj_props (kvs : list (string * value)) : list (string * json) :=
  match kvs with
  | [] => []
  | (k, Some v) :: rest => (k, v) :: obj_props rest
  | (_, None) :: rest => obj_props rest
  end.

Definition obj_literal (kvs : list (string * value)) : json :=
  JObj (obj_props kvs).

(** ** Text and JSON *)

Inductive text : Type :=
| Garbled
| Encodes (j : json).

(** [JSON.parse(t)]; [JSON.parse(undefined)] is a [SyntaxError] too. *)
Definition JSON_parse (t : option text) : Res json :=
  match t with
  | Some (Encodes j) => Ok j
  | Some Garbled | None => Throw SyntaxError
  end.

(** [JSON.stringify(j)] for a value of [json]: the text that denotes it.
    (Values of [json] are what the parser returned, with integer
    numbers; the numbers that [JSON.stringify] does not write back as
    they were, such as an infinity, are not among them.) *)
Definition JSON_stringify (j : json) : text := Encodes j.

(** ** Arrays *)

(** A method of [Array.prototype] called on something else is a
    [TypeError] ([null] has no properties, the others no such method). *)
Definition as_array (j : json) : Res (list json) :=
  match j with
  | JArr l => Ok l
  | _ => Throw TypeError
  end.

(** [l.find(p)] on the elements from position [0]. *)
Fixpoint find_from (p : json -> Res bool) (l : list json) : Res value :=
  match l with
  | [] => Ok None
  | x :: rest =>
      match p x with
      | Throw e => Throw e
      | Ok true => Ok (Some x)
      | Ok false => find_from p rest
      end
  end.

(** [l.findIndex(p)], counting from [i]; [-1] when nothing matches. *)
Fixpoint findIndex_from (p : json -> Res bool) (l : list json) (i : Z) : Res Z :=
  match l with
  | [] => Ok (-1)%Z
  | x :: rest =>
      match p x with
      | Throw e => Throw e
      | Ok true => Ok i
      | Ok false => findIndex_from p rest (i + 1)%Z
      end
  end.

Definition array_find (p : json -> Res bool) (files : json) : Res value :=
  match as_array files with
  | Ok l => find_from p l
  | Throw e => Throw e
  end.

Definition array_findIndex (p : json -> Res bool) (files : json) : Res Z :=
  match as_array files with
  | Ok l => findIndex_from p l 0
  | Throw e => Throw e
  end.

(** [files[i]] *)
Definition array_get (l : list json) (i : Z) : value :=
  if (i <? 0)%Z then None else l !! Z.to_nat i.

(** [files.splice(i, 1)]: a negative start counts from the end, a start
    past the end removes nothing. *)
Definition array_splice1 (l : list json) (i : Z) : list json :=
  let len := Z.of_nat (length l) in
  let start := if (i <? 0)%Z then Z.max (len + i) 0 else Z.min i len in
  take (Z.to_nat start) l ++ drop (S (Z.to_nat start)) l.

(** [files.push(x)] *)
Definition array_push (files : json) (x : json) : Res json :=
  match as_array files with
  | Ok l => Ok (JArr (l ++ [x]))
  | Throw e => Throw e
  end.

(** ** Paths *)

(** [path.join]: every argument must be a string; empty segments are
    skipped.  [path.join] also normalises its result; on segments that are
    plain names ([plain_name] below: not empty, not [.] or [..], no
    separator inside) under a normalised directory, normalising changes
    nothing, and that is where [join_segments] is [path.join].  The
    properties that name the path of a blob are stated for such names,
    which are the names the storage generates. *)
Fixpoint join_segments (segs : list string) : string :=
  match segs with
  | [] => ""
  | s :: rest =>
      if String.eqb s "" then join_segments rest
      else
        let tail := join_segments rest in
        if String.eqb tail "" then s else s +:+ "/" +:+ tail
  end.

Fixpoint string_args (args : list value) : Res (list string) :=
  match args with
  | [] => Ok []
  | Some (JStr s) :: rest =>
      match string_args rest with
      | Ok l => Ok (s :: l)
      | Throw e => Throw e
      end
  | _ :: _ => Throw TypeError
  end.

Definition path_join (args : list value) : Res string :=
  match string_args args with
  | Ok segs => Ok (join_segments segs)
  | Throw e => Throw e
  end.

(** ** The file system *)

(** The file at [FILES_DB_PATH]: not there, there but not readable, or
    there with some text. *)
Inductive DbFile : Type :=
| Absent
| Unreadable
| Content (t : text).

Record World : Type := mkWorld {
  db : DbFile;
  db_writable : bool;
  blobs : gmap string string
}.

Inductive event : Type :=
| ConsoleError (label : string)
| WroteDb (t : text)
| Unlinked (path : string)
| StoredBlob (path : string).

(** ** The monad of the handlers *)

Definition M (A : Type) : Type := World -> Res A * World * list event.

Definition ret {A} (a : A) : M A := fun w => (Ok a, w, []).

Definition throw {A} (e : exn) : M A := fun w => (Throw e, w, []).

Definition bind {A B} (m : M A) (k : A -> M B) : M B :=
  fun w =>
    match m w with
    | (Ok a, w1, t1) =>
        match k a w1 with
        | (r, w2, t2) => (r, w2, t1 ++ t2)
        end
    | (Throw e, w1, t1) => (Throw e, w1, t1)
    end.

(** [try { m } catch (e) { h e }] *)
Definition try_catch {A} (m : M A) (h : exn -> M A) : M A :=
  fun w =>
    match m w with
    | (Throw e, w1, t1) =>
        match h e w1 with
        | (r, w2, t2) => (r, w2, t1 ++ t2)
        end
    | done => done
    end.

Definition lift {A} (r : Res A) : M A := fun w => (r, w, []).

Declare Scope js_scope.
Delimit Scope js_scope with js.
Notation "'let*' x ':=' m 'in' k" := (bind m (fun x => k))
  (at level 10, x name, m at level 100, k at level 200) : js_scope.
Notation "m '>>' k" := (bind m (fun _ => k))
  (at level 65, right associativity) : js_scope.
Open Scope js_scope.

Definition result {A} (x : Res A * World * list event) : Res A := x.1.1.
Definition final {A} (x : Res A * World * list event) : World := x.1.2.
Definition trace {A} (x : Res A * World * list event) : list event := x.2.

Definition console_error (label : string) : M unit :=
  fun w => (Ok tt, w, [ConsoleError label]).

Definition fs_existsSync_db : M bool :=
  fun w => (Ok (match db w with Absent => false | _ => true end), w, []).

Definition fs_readFileSync_db : M text :=
  fun w =>
    match db w with
    | Content t => (Ok t, w, [])
    | Absent | Unreadable => (Throw SystemError, w, [])
    end.

(** A failed write leaves the document as it was. *)
Definition fs_writeFileSync_db (t : text) : M unit :=
  fun w =>
    if db_writable w
    then (Ok tt, mkWorld (Content t) (db_writable w) (blobs w), [WroteDb t])
    else (Throw SystemError, w, []).

Definition fs_existsSync (p : string) : M bool :=
  fun w => (Ok (bool_decide (is_Some (blobs w !! p))), w, []).

(** The blobs are regular files: removing one that exists succeeds,
    removing what does not exist throws. *)
Definition fs_unlinkSync (p : string) : M unit :=
  fun w =>
    match blobs w !! p with
    | Some _ => (Ok tt, mkWorld (db w) (db_writable w) (delete p (blobs w)), [Unlinked p])
    | None => (Throw SystemError, w, [])
    end.

Definition fs_storeBlob (p : string) (content : string) : M unit :=
  fun w => (Ok tt, mkWorld (db w) (db_writable w) (<[p := content]> (blobs w)), [StoredBlob p]).

(** ** The metadata store *)

Definition readFiles : M json :=
  let* early :=
    try_catch
      (let* present := fs_existsSync_db in
       if present
       then
         let* t := fs_readFileSync_db in
         let* j := lift (JSON_parse (Some t)) in
         ret (Some j)
       else ret None)
      (fun _ => console_error "Error reading files database:" >> ret None) in
  match early with
  | Some j => ret j
  | None => ret (JArr [])
  end.

Definition writeFiles (files : json) : M bool :=
  try_catch
    (fs_writeFileSync_db (JSON_stringify files) >> ret true)
    (fun _ => console_error "Error writing files database:" >> ret false).

(** ** Clock readings *)

(** Decimal rendering of [n], padded with zeros to [width] digits. *)
Fixpoint zeros (k : nat) : string :=
  match k with
  | O => ""
  | S k' => "0" +:+ zeros k'
  end.

Definition pad (width : nat) (n : N) : string :=
  let digits := pretty n in
  zeros (width - String.length digits) +:+ digits.

(** Year, month and day of the proleptic Gregorian calendar for a number
    of days since 1970-01-01. *)
Definition civil_from_days (days : Z) : Z * Z * Z :=
  let z := (days + 719468)%Z in
  let era := (z / 146097)%Z in
  let doe := (z mod 146097)%Z in
  let yoe := ((doe - doe / 1460 + doe / 36524 - doe / 146096) / 365)%Z in
  let doy := (doe - (365 * yoe + yoe / 4 - yoe / 100))%Z in
  let mp := ((5 * doy + 2) / 153)%Z in
  let d := (doy - (153 * mp + 2) / 5 + 1)%Z in
  let m := if (mp <? 10)%Z then (mp + 3)%Z else (mp - 9)%Z in
  let y := (yoe + era * 400 + (if (m <=? 2)%Z then 1 else 0))%Z in
  (y, m, d).

(** [new Date(t).toISOString()] for a clock reading [t] in milliseconds
    since the epoch: [YYYY-MM-DDTHH:mm:ss.sssZ], with the expanded
    six-digit year after 9999. *)
Definition toISOString (t : N) : string :=
  let '(y, m, d) := civil_from_days (Z.of_N (t / 86400000)%N) in
  let year :=
    if (y <=? 9999)%Z then pad 4 (Z.to_N y) else "+" +:+ pad 6 (Z.to_N y) in
  year +:+ "-" +:+ pad 2 (Z.to_N m) +:+ "-" +:+ pad 2 (Z.to_N d)
  +:+ "T" +:+ pad 2 ((t / 3600000) mod 24)%N
  +:+ ":" +:+ pad 2 ((t / 60000) mod 60)%N
  +:+ ":" +:+ pad 2 ((t / 1000) mod 60)%N
  +:+ "." +:+ pad 3 (t mod 1000)%N +:+ "Z".

(** [Date.now().toString()] and [Date.now() + '-' + ...] render the
    reading in decimal. *)
Definition number_toString (t : N) : string := pretty t.

(** ** Responses *)

(** [res.status(s).json(body)] (status 200 when [res.json] is called
    alone) and [res.download(path, name)], which answers 200 with the file
    at [path] as an attachment whose suggested name is [name]. *)
Inductive Response : Type :=
| SendJson (status : N) (body : json)
| SendDownload (path : string) (name : value).

Definition http_status (r : Response) : N :=
  match r with
  | SendJson s _ => s
  | SendDownload _ _ => 200%N
  end.

Definition error_body (msg : string) : json := JObj [("error", JStr msg)].

(** The error-handling middleware registered last. *)
Definition error_middleware (e : exn) : Response :=
  match e with
  | MulterError code =>
      if String.eqb code "LIMIT_FILE_SIZE"
      then SendJson 400 (error_body "Файл слишком большой")
      else SendJson 500 (error_body "Внутренняя ошибка сервера")
  | _ => SendJson 500 (error_body "Внутренняя ошибка сервера")
  end.

(** Express hands an exception thrown by a route's callbacks to the error
    middleware. *)
Definition route (h : M Response) : M Response :=
  try_catch h (fun e => ret (error_middleware e)).

(** ** Requests *)

(** The file part of a multipart upload as multer's parser hands it to the
    storage: [part_name] is the file name it reports (the base name of
    the name the client sent), which becomes [req.file.originalname]. *)
Record FilePart : Type := mkFilePart {
  part_name : string;
  part_type : string;
  part_content : string
}.

(** [req.file] as multer's disk storage fills it in. *)
Record MulterFile : Type := mkMulterFile {
  file_originalname : string;
  file_mimetype : string;
  file_size : N;
  file_filename : string;
  file_path : string
}.

Record UploadRequest : Type := mkUploadRequest {
  upload_part : option FilePart;
  upload_user : option text
}.

Definition fileSize_limit : N := (10 * 1024 * 1024)%N.

Section Server.

(** [__dirname], the directory of [server.js]. *)
Variable dirname : string.

(** [new Date(t).toLocaleString('ru-RU')], which depends on the time zone
    and the locale data of the host. *)
Variable toLocaleString_ruRU : N -> string.

Definition uploadsDir : string := join_segments [dirname; "uploads"].

(** ** multer: [upload.single('file')] with the disk storage of the source

    [now] is the reading of [Date.now()] in the [filename] callback.  A
    file over the limit is an error, and multer removes what it stored.
    (The [destination] callback creates the uploads directory when it is
    missing; blobs are kept by path here, so that has no counterpart.) *)
Definition upload_single (now : N) (part : option FilePart) : M (option MulterFile) :=
  match part with
  | None => ret None
  | Some p =>
      let filename := number_toString now +:+ "-" +:+ part_name p in
      let path := join_segments [uploadsDir; filename] in
      let size := N.of_nat (String.length (part_content p)) in
      if (fileSize_limit <? size)%N
      then
        fs_storeBlob path (part_content p) >>
        fs_unlinkSync path >>
        throw (MulterError "LIMIT_FILE_SIZE")
      else
        fs_storeBlob path (part_content p) >>
        ret (Some (mkMulterFile (part_name p) (part_type p) size filename path))
  end.

(** ** GET /api/status *)

Definition get_api_status (now : N) : M Response :=
  ret (SendJson 200 (obj_literal
    [("status", Some (JStr "OK"));
     ("message", Some (JStr "Сервер файлообменника работает"));
     ("timestamp", Some (JStr (toISOString now)))])).

(** ** GET /api/files *)

Definition get_api_files : M Response :=
  let* files := readFiles in
  ret (SendJson 200 files).

(** ** POST /api/upload

    [t_id] is the reading of [Date.now()] for the id, [t_date] that of
    [new Date()] for the upload date. *)

(** The object literal [fileInfo]. *)
Definition fileInfo (t_id t_date : N) (f : MulterFile)
    (author authorId authorColor : value) : json :=
  obj_literal
    [("id", Some (JStr (number_toString t_id)));
     ("name", Some (JStr (file_originalname f)));
     ("size", Some (JNum (Z.of_N (file_size f))));
     ("type", Some (JStr (file_mimetype f)));
     ("uploadDate", Some (JStr (toLocaleString_ruRU t_date)));
     ("author", author);
     ("authorId", authorId);
     ("authorColor", authorColor);
     ("filename", Some (JStr (file_filename f)));
     ("path", Some (JStr (file_path f)))].

Definition post_api_upload (t_id t_date : N)
    (file : option MulterFile) (user_field : option text) : M Response :=
  try_catch
    (match file with
     | None => ret (SendJson 400 (error_body "Файл не был загружен"))
     | Some f =>
         let* user := lift (JSON_parse user_field) in
         let* author := lift (get_prop (Some user) "name") in
         let* authorId := lift (get_prop (Some user) "id") in
         let* authorColor := lift (get_prop (Some user) "color") in
         let info := fileInfo t_id t_date f author authorId authorColor in
         let* files := readFiles in
         let* files' := lift (array_push files info) in
         let* saved := writeFiles files' in
         if saved
         then ret (SendJson 200 info)
         else ret (SendJson 500 (error_body "Ошибка сохранения информации о файле"))
     end)
    (fun _ =>
       console_error "Upload error:" >>
       ret (SendJson 500 (error_body "Ошибка при загрузке файла"))).

(** ** GET /api/download/:id *)

(** [f => f.id === id] *)
Definition has_id (id : string) (f : json) : Res bool :=
  match get_prop (Some f) "id" with
  | Ok v => Ok (strict_eq v (Some (JStr id)))
  | Throw e => Throw e
  end.

Definition get_api_download (id : string) : M Response :=
  let* files := readFiles in
  let* file := lift (array_find (has_id id) files) in
  if negb (truthy file)
  then ret (SendJson 404 (error_body "Файл не найден"))
  else
    let* filename := lift (get_prop file "filename") in
    let* filePath :=
      lift (path_join [Some (JStr dirname); Some (JStr "uploads"); filename]) in
    let* present := fs_existsSync filePath in
    if negb present
    then ret (SendJson 404 (error_body "Файл не найден на сервере"))
    else
      let* name := lift (get_prop file "name") in
      ret (SendDownload filePath name).

(** ** DELETE /api/files/:id

    [body] holds the properties of [req.body], the object [express.json()]
    leaves there. *)
Definition delete_api_files (id : string) (body : list (string * json)) : M Response :=
  try_catch
    (let userId := assoc "userId" body in
     let* files := readFiles in
     let* fileIndex := lift (array_findIndex (has_id id) files) in
     if (fileIndex =? -1)%Z
     then ret (SendJson 404 (error_body "Файл не найден"))
     else
       let* records := lift (as_array files) in
       let file := array_get records fileIndex in
       let* authorId := lift (get_prop file "authorId") in
       if negb (strict_eq authorId userId)
       then ret (SendJson 403 (error_body "Нельзя удалить чужой файл"))
       else
         let* filename := lift (get_prop file "filename") in
         let* filePath :=
           lift (path_join [Some (JStr dirname); Some (JStr "uploads"); filename]) in
         let* present := fs_existsSync filePath in
         (if present then fs_unlinkSync filePath else ret tt) >>
         let files' := JArr (array_splice1 records fileIndex) in
         let* saved := writeFiles files' in
         if saved
         then ret (SendJson 200 (JObj [("message", JStr "Файл удален")]))
         else ret (SendJson 500 (error_body "Ошибка при удалении файла")))
    (fun _ =>
       console_error "Delete error:" >>
       ret (SendJson 500 (error_body "Ошибка при удалении файла"))).

(** ** The routes *)

Definition route_status (now : N) : M Response := route (get_api_status now).

Definition route_files : M Response := route get_api_files.

Definition route_upload (t_file t_id t_date : N) (req : UploadRequest) : M Response :=
  route
    (let* file := upload_single t_file (upload_part req) in
     post_api_upload t_id t_date file (upload_user req)).

Definition route_download (id : string) : M Response := route (get_api_download id).

Definition route_delete (id : string) (body : list (string * json)) : M Response :=
  route (delete_api_files id body).

(** ** Vocabulary of the statements *)

(** What the metadata document currently denotes for [readFiles]. *)
Definition stored (w : World) : json :=
  match db w with
  | Content (Encodes j) => j
  | _ => JArr []
  end.

(** What [readFiles] writes to the console. *)
Definition read_log (w : World) : list event :=
  match db w with
  | Unreadable | Content Garbled => [ConsoleError "Error reading files database:"]
  | _ => []
  end.

Definition is_string (v : value) : bool :=
  match v with
  | Some (JStr _) => true
  | _ => false
  end.

Definition is_number (v : value) : bool :=
  match v with
  | Some (JNum _) => true
  | _ => false
  end.

(** A [FileRecord] of the data model: an object with a string [id],
    [name], [type], [uploadDate], [filename] and [path] and a numeric
    [size]; the author fields are whatever the client supplied. *)
Definition FileRecord (j : json) : bool :=
  match j with
  | JObj _ =>
      is_string (field "id" j) && is_string (field "name" j)
      && is_number (field "size" j) && is_string (field "type" j)
      && is_string (field "uploadDate" j) && is_string (field "filename" j)
      && is_string (field "path" j)
  | _ => false
  end.

(** The metadata list of [w] is the list of records [l]. *)
Definition metadata_list (w : World) (l : list json) : Prop :=
  result (readFiles w) = Ok (JArr l) /\ forallb FileRecord l = true.

(** The record carries the identifier [id]. *)
Definition id_is (id : string) (r : json) : bool :=
  strict_eq (field "id" r) (Some (JStr id)).

(** Where the handlers look for the blob of a record. *)
Definition blob_path (filename : string) : string :=
  join_segments [dirname; "uploads"; filename].

(** A name without path separator. *)
Fixpoint no_slash (s : string) : bool :=
  match s with
  | EmptyString => true
  | String c rest =>
      negb (Ascii.eqb c (Ascii.ascii_of_nat 47)) && no_slash rest
  end.

(** A plain file name: one path segment that [path.join] leaves as it
    is. *)
Definition plain_name (s : string) : bool :=
  negb (String.eqb s "") && negb (String.eqb s ".")
  && negb (String.eqb s "..") && no_slash s.

(** The file-system mutations of a trace, console messages left out. *)
Definition mutations (t : list event) : list event :=
  List.filter (fun e => match e with ConsoleError _ => false | _ => true end) t.
Arguments mutations : simpl never.

(** The host's rendering of dates when its time zone is UTC. *)
Definition utc_ruRU (t : N) : string :=
  let '(y, m, d) := civil_from_days (Z.of_N (t / 86400000)%N) in
  pad 2 (Z.to_N d) +:+ "." +:+ pad 2 (Z.to_N m) +:+ "." +:+ pad 4 (Z.to_N y)
  +:+ ", " +:+ pad 2 ((t / 3600000) mod 24)%N
  +:+ ":" +:+ pad 2 ((t / 60000) mod 60)%N
  +:+ ":" +:+ pad 2 ((t / 1000) mod 60)%N.

(** The answers of the handlers. *)
Definition not_found : Response := SendJson 404 (error_body "Файл не найден").
Definition blob_missing : Response := SendJson 404 (error_body "Файл не найден на сервере").
Definition forbidden : Response := SendJson 403 (error_body "Нельзя удалить чужой файл").
Definition deleted : Response := SendJson 200 (JObj [("message", JStr "Файл удален")]).
Definition delete_failed : Response := SendJson 500 (error_body "Ошибка при удалении файла").
Definition no_file : Response := SendJson 400 (error_body "Файл не был загружен").
Definition upload_failed : Response := SendJson 500 (error_body "Ошибка при загрузке файла").
Definition save_failed : Response :=
  SendJson 500 (error_body "Ошибка сохранения информации о файле").

(** What removing the blob at [p] adds to the trace. *)
Definition unlink_log (w : World) (p : string) : list event :=
  if bool_decide (is_Some (blobs w !! p)) then [Unlinked p] else [].

(** Calling a handler once per clock reading, one call after the other. *)
Fixpoint calls (h : N -> M Response) (clock : list N) (w : World)
    : list (Res Response) * World :=
  match clock with
  | [] => ([], w)
  | t :: later =>
      let '(r, w1, _) := h t w in
      let '(rs, w2) := calls h later w1 in
      (r :: rs, w2)
  end.

(** A computation that leaves the file system as it found it. *)
Definition read_only {A} (m : M A) : Prop :=
  forall w, final (m w) = w /\ mutations (trace (m w)) = [].

(** ** Sample data *)

(** An installation directory for the examples. *)
Definition sample_dirname : string := "/srv/fileshare".

Definition sample_record (id name author filename : string) : json :=
  JObj [("id", JStr id); ("name", JStr name); ("size", JNum 5);
        ("type", JStr "text/plain"); ("uploadDate", JStr "14.11.2023, 22:13:20");
        ("author", JStr "Ann"); ("authorId", JStr author);
        ("authorColor", JStr "#ff0000"); ("filename", JStr filename);
        ("path", JStr (blob_path filename))].

Definition rec_a : json := sample_record "1700000000000" "a.txt" "u1" "1699999999999-a.txt".
Definition rec_b : json := sample_record "1700000000500" "b.txt" "u2" "1700000000499-b.txt".
(** A record created in the same millisecond as [rec_a]. *)
Definition rec_a' : json := sample_record "1700000000000" "c.txt" "u2" "1700000000000-c.txt".

Definition sample_world : World :=
  mkWorld (Content (Encodes (JArr [rec_b; rec_a; rec_a']))) true
    (<[blob_path "1699999999999-a.txt" := "hello"]>
       (<[blob_path "1700000000000-c.txt" := "world"]> ∅)).

Definition empty_world : World := mkWorld Absent true ∅.



Definition sample_file : MulterFile :=
  mkMulterFile "notes.txt" "text/plain" 3 "1700000001000-notes.txt"
    (blob_path "1700000001000-notes.txt").

Definition sample_user : list (string * json) :=
  [("id", JStr "u7"); ("name", JStr "Ann"); ("color", JStr "#00ff00")].

(** The outcome once the first record with the id, [r], is known. *)
Definition delete_outcome (body : list (string * json)) (w : World)
    (l1 l2 : list json) (r : json) : Res Response * World * list event :=
  if negb (strict_eq (field "authorId" r) (assoc "userId" body))
  then (Ok forbidden, w, read_log w)
  else
    match field "filename" r with
    | Some (JStr fn) =>
        let p := blob_path fn in
        let files' := JArr (l1 ++ l2) in
        if db_writable w
        then (Ok deleted,
              mkWorld (Content (Encodes files')) true (delete p (blobs w)),
              read_log w ++ unlink_log w p ++ [WroteDb (Encodes files')])
        else (Ok delete_failed,
              mkWorld (db w) false (delete p (blobs w)),
              read_log w ++ unlink_log w p
                ++ [ConsoleError "Error writing files database:"])
    | _ => (Ok delete_failed, w, read_log w ++ [ConsoleError "Delete error:"])
    end.

(** ** The application: one request after the other *)

(** What multer reports in [req.file] for the part [p] stored at the
    clock reading [now]. *)
Definition multer_file (now : N) (p : FilePart) : MulterFile :=
  let filename := number_toString now +:+ "-" +:+ part_name p in
  mkMulterFile (part_name p) (part_type p)
    (N.of_nat (String.length (part_content p))) filename
    (join_segments [uploadsDir; filename]).

(** The requests the application routes to the handlers of the API. *)
Inductive Request : Type :=
| GetStatus (now : N)
| GetFiles
| PostUpload (t_file t_id t_date : N) (req : UploadRequest)
| GetDownload (id : string)
| DeleteFile (id : string) (body : list (string * json)).

Definition serve (r : Request) : M Response :=
  match r with
  | GetStatus now => route_status now
  | GetFiles => route_files
  | PostUpload t_file t_id t_date req => route_upload t_file t_id t_date req
  | GetDownload id => route_download id
  | DeleteFile id body => route_delete id body
  end.


(** A JSON value that [===] compares by value. *)
Definition primitive (v : value) : bool :=
  match v with
  | Some (JArr _) | Some (JObj _) => false
  | _ => true
  end.

(** The file system once the blob [content] is stored at [p]. *)
Definition with_blob (p content : string) (w : World) : World :=
  mkWorld (db w) (db_writable w) (<[p := content]> (blobs w)).

(** A part one byte over the limit of multer. *)
Definition big_part : FilePart :=
  mkFilePart "big.bin" "application/octet-stream" (zeros (N.to_nat 10485761)).

Definition small_part : FilePart := mkFilePart "notes.txt" "text/plain" "abc".

(** The characters of a decimal rendering. *)
Definition is_digit (c : Ascii.ascii) : bool :=
  let n := Ascii.nat_of_ascii c in (48 <=? n)%nat && (n <=? 57)%nat.

Fixpoint all_digits (s : string) : bool :=
  match s with
  | EmptyString => true
  | String c rest => is_digit c && all_digits rest
  end.

(** A record whose author id is an object, and one without author id. *)
Definition rec_structured : json :=
  JObj [("id", JStr "1700000002000"); ("name", JStr "s.txt"); ("size", JNum 1);
        ("type", JStr "text/plain"); ("uploadDate", JStr "14.11.2023, 22:46:40");
        ("authorId", JObj [("n", JNum 1)]);
        ("filename", JStr "1700000001999-s.txt");
        ("path", JStr (blob_path "1700000001999-s.txt"))].

Definition rec_anonymous : json :=
  JObj [("id", JStr "1700000003000"); ("name", JStr "t.txt"); ("size", JNum 1);
        ("type", JStr "text/plain"); ("uploadDate", JStr "14.11.2023, 23:03:20");
        ("filename", JStr "1700000002999-t.txt");
        ("path", JStr (blob_path "1700000002999-t.txt"))].

Definition odd_world : World :=
  mkWorld (Content (Encodes (JArr [rec_structured; rec_anonymous]))) true ∅.

(** The sample installation on a disk that refuses writes. *)
Definition readonly_world : World :=
  mkWorld (db sample_world) false (blobs sample_world).


(** ** The metadata store, evaluated *)

Lemma readFiles_run (w : World) : readFiles w = (Ok (stored w), w, read_log w).
Proof.
  destruct w as [[| |[|j]] writable bs]; reflexivity.
Qed.

Lemma writeFiles_run (files : json) (w : World) :
  writeFiles files w =
    if db_writable w
    then (Ok true, mkWorld (Content (Encodes files)) (db_writable w) (blobs w),
          [WroteDb (Encodes files)])
    else (Ok false, w, [ConsoleError "Error writing files database:"]).
Proof.
  unfold writeFiles, try_catch, bind, fs_writeFileSync_db, JSON_stringify.
  destruct (db_writable w); reflexivity.
Qed.

Lemma stored_metadata (w : World) (l : list json) :
  metadata_list w l -> stored w = JArr l.
Proof.
  intros [Hread _]. rewrite readFiles_run in Hread. cbn in Hread. congruence.
Qed.

(** ** Looking a record up by id *)

Lemma has_id_obj (id : string) (props : list (string * json)) :
  has_id id (JObj props) = Ok (id_is id (JObj props)).
Proof. reflexivity. Qed.

Lemma id_is_obj (id : string) (r : json) :
  id_is id r = true -> exists props, r = JObj props.
Proof.
  destruct r; try discriminate. eauto.
Qed.

Lemma FileRecord_obj (r : json) :
  FileRecord r = true -> exists props, r = JObj props.
Proof.
  destruct r; try discriminate. eauto.
Qed.

Lemma has_id_record (id : string) (r : json) :
  FileRecord r = true -> has_id id r = Ok (id_is id r).
Proof.
  intros Hr. destruct (FileRecord_obj r Hr) as [props ->]. reflexivity.
Qed.

Lemma has_id_inv (id : string) (x : json) (b : bool) :
  has_id id x = Ok b -> id_is id x = b.
Proof.
  destruct x; intros H; try discriminate H; by injection H.
Qed.

Lemma records_has_id (id : string) (l : list json) :
  forallb FileRecord l = true ->
  forallb (fun r => negb (id_is id r)) l = true ->
  Forall (fun y => has_id id y = Ok false) l.
Proof.
  intros Hrec Hno. induction l as [|x l IH]; [constructor|].
  cbn in Hrec, Hno.
  apply andb_prop in Hrec as [Hx Hl]. apply andb_prop in Hno as [Hnx Hnl].
  constructor; [|auto].
  rewrite (has_id_record id x Hx). f_equal. by apply negb_true_iff.
Qed.

Section Find.

Variable p : json -> Res bool.

Lemma find_from_first (l1 l2 : list json) (r : json) :
  Forall (fun y => p y = Ok false) l1 -> p r = Ok true ->
  find_from p (l1 ++ r :: l2) = Ok (Some r).
Proof.
  intros Hl1 Hr. induction Hl1 as [|y l1 Hy _ IH]; cbn.
  - by rewrite Hr.
  - by rewrite Hy.
Qed.

Lemma find_from_none (l : list json) :
  Forall (fun y => p y = Ok false) l -> find_from p l = Ok None.
Proof.
  induction 1 as [|y l Hy _ IH]; cbn; [done|]. by rewrite Hy.
Qed.

Lemma findIndex_from_first (l1 l2 : list json) (r : json) (i : Z) :
  Forall (fun y => p y = Ok false) l1 -> p r = Ok true ->
  findIndex_from p (l1 ++ r :: l2) i = Ok (i + Z.of_nat (length l1))%Z.
Proof.
  intros Hl1 Hr. revert i. induction Hl1 as [|y l1 Hy _ IH]; intros i; cbn [app findIndex_from length].
  - rewrite Hr. f_equal. lia.
  - rewrite Hy, IH. f_equal. lia.
Qed.

Lemma findIndex_from_none (l : list json) (i : Z) :
  Forall (fun y => p y = Ok false) l -> findIndex_from p l i = Ok (-1)%Z.
Proof.
  intros Hl. revert i. induction Hl as [|y l Hy _ IH]; intros i; cbn; [done|].
  by rewrite Hy.
Qed.

(** What a result of [findIndex] says about the list. *)
Lemma findIndex_from_inv (l : list json) (i z : Z) :
  (0 <= i)%Z -> findIndex_from p l i = Ok z ->
  (z = (-1)%Z /\ Forall (fun y => p y = Ok false) l)
  \/ (exists l1 r l2, l = l1 ++ r :: l2
        /\ Forall (fun y => p y = Ok false) l1 /\ p r = Ok true
        /\ z = (i + Z.of_nat (length l1))%Z).
Proof.
  revert i. induction l as [|x l IH]; intros i Hi Hfind; cbn in Hfind.
  - left. split; [congruence | constructor].
  - destruct (p x) as [[|]|e] eqn:Hx; [| |discriminate].
    + right. exists [], x, l. repeat split; [constructor | done |].
      cbn. injection Hfind as <-. lia.
    + destruct (IH (i + 1)%Z ltac:(lia) Hfind)
        as [[-> Hall] | (l1 & r & l2 & -> & Hl1 & Hr & ->)].
      * left. split; [done|]. by constructor.
      * right. exists (x :: l1), r, l2. repeat split; [by constructor | done |].
        cbn [length]. lia.
Qed.

End Find.

(** ** Removing one element *)

Lemma array_get_middle (l1 l2 : list json) (r : json) :
  array_get (l1 ++ r :: l2) (0 + Z.of_nat (length l1)) = Some r.
Proof.
  unfold array_get. destruct (Z.ltb_spec (0 + Z.of_nat (length l1)) 0); [lia|].
  replace (Z.to_nat (0 + Z.of_nat (length l1))) with (length l1) by lia.
  by apply list_lookup_middle.
Qed.

Lemma array_splice1_delete (l : list json) (n : nat) :
  array_splice1 l (Z.of_nat n) = delete n l.
Proof.
  unfold array_splice1. destruct (Z.ltb_spec (Z.of_nat n) 0); [lia|].
  rewrite delete_take_drop.
  destruct (decide (n <= length l)) as [Hle|Hgt].
  - by replace (Z.to_nat (Z.min (Z.of_nat n) (Z.of_nat (length l)))) with n by lia.
  - replace (Z.to_nat (Z.min (Z.of_nat n) (Z.of_nat (length l)))) with (length l) by lia.
    rewrite !take_ge, !drop_ge by lia. done.
Qed.

Lemma array_splice1_middle (l1 l2 : list json) (r : json) :
  array_splice1 (l1 ++ r :: l2) (0 + Z.of_nat (length l1)) = l1 ++ l2.
Proof.
  rewrite Z.add_0_l, array_splice1_delete. apply delete_middle.
Qed.

(** ** The download handler, evaluated *)



Lemma download_first (id : string) (w : World) (l1 l2 : list json) (r : json) (fn : string) :
  stored w = JArr (l1 ++ r :: l2) ->
  Forall (fun y => has_id id y = Ok false) l1 ->
  has_id id r = Ok true ->
  field "filename" r = Some (JStr fn) ->
  get_api_download id w =
    (Ok (if bool_decide (is_Some (blobs w !! blob_path fn))
         then SendDownload (blob_path fn) (field "name" r)
         else blob_missing),
     w, read_log w).
Proof.
  intros Hst Hl1 Hr Hfn.
  destruct (id_is_obj id r (has_id_inv _ _ _ Hr)) as [props ->].
  unfold get_api_download, bind. rewrite readFiles_run. unfold lift.
  rewrite Hst. cbn [array_find as_array]. rewrite (find_from_first _ _ _ _ Hl1 Hr).
  cbn [truthy negb get_prop]. rewrite Hfn. cbn [path_join string_args].
  unfold fs_existsSync. fold (blob_path fn).
  destruct (bool_decide (is_Some (blobs w !! blob_path fn))); cbn;
    by rewrite !app_nil_r.
Qed.

(** On a document that denotes something else than a list the handler
    throws, and the error middleware answers. *)
Lemma download_not_array (id : string) (w : World) :
  as_array (stored w) = Throw TypeError ->
  result (route_download id w)
    = Ok (SendJson 500 (error_body "Внутренняя ошибка сервера")).
Proof.
  intros Hst. unfold route_download, route, try_catch, get_api_download, bind.
  rewrite readFiles_run. unfold lift, array_find. by rewrite Hst.
Qed.

(** ** The delete handler, evaluated *)

Lemma delete_unknown (id : string) (body : list (string * json)) (w : World) (l : list json) :
  stored w = JArr l ->
  Forall (fun y => has_id id y = Ok false) l ->
  delete_api_files id body w = (Ok not_found, w, read_log w).
Proof.
  intros Hst Hno.
  unfold delete_api_files, try_catch, bind. rewrite readFiles_run. unfold lift.
  rewrite Hst. cbn [array_findIndex as_array]. rewrite (findIndex_from_none _ _ _ Hno).
  cbn. by rewrite app_nil_r.
Qed.

Lemma delete_not_array (id : string) (body : list (string * json)) (w : World) :
  as_array (stored w) = Throw TypeError ->
  delete_api_files id body w =
    (Ok delete_failed, w, read_log w ++ [ConsoleError "Delete error:"]).
Proof.
  intros Hst.
  unfold delete_api_files, try_catch, bind. rewrite readFiles_run. unfold lift.
  unfold array_findIndex. rewrite Hst. cbn. by rewrite app_nil_r.
Qed.

Lemma delete_lookup_throws (id : string) (body : list (string * json)) (w : World)
    (l : list json) (e : exn) :
  stored w = JArr l ->
  findIndex_from (has_id id) l 0 = Throw e ->
  delete_api_files id body w =
    (Ok delete_failed, w, read_log w ++ [ConsoleError "Delete error:"]).
Proof.
  intros Hst Hfind.
  unfold delete_api_files, try_catch, bind. rewrite readFiles_run. unfold lift.
  rewrite Hst. cbn [array_findIndex as_array]. rewrite Hfind.
  cbn. by rewrite app_nil_r.
Qed.

Lemma delete_first (id : string) (body : list (string * json)) (w : World)
    (l1 l2 : list json) (r : json) :
  stored w = JArr (l1 ++ r :: l2) ->
  Forall (fun y => has_id id y = Ok false) l1 ->
  has_id id r = Ok true ->
  delete_api_files id body w = delete_outcome body w l1 l2 r.
Proof.
  intros Hst Hl1 Hr.
  destruct (id_is_obj id r (has_id_inv _ _ _ Hr)) as [props ->].
  unfold delete_api_files, delete_outcome, try_catch, bind.
  rewrite readFiles_run. unfold lift.
  rewrite Hst. cbn [array_findIndex as_array].
  rewrite (findIndex_from_first _ _ _ _ _ Hl1 Hr).
  destruct (Z.eqb_spec (0 + Z.of_nat (length l1)) (-1)) as [Hneg|_]; [lia|].
  rewrite array_get_middle, array_splice1_middle.
  cbn [get_prop].
  destruct (strict_eq (field "authorId" (JObj props)) (assoc "userId" body));
    cbn [negb]; [|cbn; by rewrite !app_nil_r].
  destruct (field "filename" (JObj props)) as [[| | |fn| |]|] eqn:Hfn;
    cbn [path_join string_args]; try (cbn; by rewrite !app_nil_r).
  fold (blob_path fn). unfold fs_existsSync, fs_unlinkSync, unlink_log.
  cbn [fst snd].
  destruct (blobs w !! blob_path fn) as [content|] eqn:Hblob.
  - rewrite bool_decide_eq_true_2 by eauto.
    rewrite Hblob. cbn [ret]. rewrite writeFiles_run. cbn [db_writable blobs db].
    destruct (db_writable w) eqn:Hw; cbn; by rewrite ?app_nil_r.
  - rewrite bool_decide_eq_false_2 by (intros [? ?]; congruence).
    cbn [ret]. rewrite writeFiles_run, (delete_id _ _ Hblob).
    destruct w as [d wr bs]. cbn in *. destruct wr; cbn; by rewrite ?app_nil_r.
Qed.

(** ** The upload handler, evaluated *)

Lemma upload_no_file (t_id t_date : N) (user_field : option text) (w : World) :
  post_api_upload t_id t_date None user_field w = (Ok no_file, w, []).
Proof. reflexivity. Qed.

Lemma upload_bad_user (t_id t_date : N) (f : MulterFile) (user_field : option text)
    (w : World) (e : exn) :
  JSON_parse user_field = Throw e ->
  post_api_upload t_id t_date (Some f) user_field w =
    (Ok upload_failed, w, [ConsoleError "Upload error:"]).
Proof.
  intros Hparse. unfold post_api_upload, try_catch, bind, lift.
  by rewrite Hparse.
Qed.

Lemma upload_not_array (t_id t_date : N) (f : MulterFile)
    (props : list (string * json)) (w : World) :
  as_array (stored w) = Throw TypeError ->
  post_api_upload t_id t_date (Some f) (Some (Encodes (JObj props))) w =
    (Ok upload_failed, w, read_log w ++ [ConsoleError "Upload error:"]).
Proof.
  intros Hst. unfold post_api_upload, try_catch, bind, lift.
  cbn [JSON_parse get_prop]. rewrite readFiles_run.
  unfold array_push. rewrite Hst. cbn. by rewrite app_nil_r.
Qed.

Lemma upload_null_user (t_id t_date : N) (f : MulterFile) (w : World) :
  post_api_upload t_id t_date (Some f) (Some (Encodes JNull)) w =
    (Ok upload_failed, w, [ConsoleError "Upload error:"]).
Proof. reflexivity. Qed.

Lemma upload_array (t_id t_date : N) (f : MulterFile) (user : json)
    (w : World) (l : list json) :
  user <> JNull ->
  stored w = JArr l ->
  post_api_upload t_id t_date (Some f) (Some (Encodes user)) w =
    let info :=
      fileInfo t_id t_date f (field "name" user) (field "id" user)
        (field "color" user) in
    if db_writable w
    then (Ok (SendJson 200 info),
          mkWorld (Content (Encodes (JArr (l ++ [info])))) true (blobs w),
          read_log w ++ [WroteDb (Encodes (JArr (l ++ [info])))])
    else (Ok save_failed, w,
          read_log w ++ [ConsoleError "Error writing files database:"]).
Proof.
  intros Huser Hst. unfold post_api_upload, try_catch, bind, lift.
  cbn [JSON_parse].
  assert (forall k, get_prop (Some user) k = Ok (field k user)) as Hget
    by (intros k; by destruct user).
  rewrite !Hget. rewrite readFiles_run.
  unfold array_push. rewrite Hst. cbn [as_array].
  rewrite writeFiles_run.
  destruct (db_writable w) eqn:Hw; cbn; by rewrite ?app_nil_r.
Qed.

(** The fields of a new record. *)
Lemma fileInfo_fields (t_id t_date : N) (f : MulterFile) (author authorId authorColor : value) :
  let info := fileInfo t_id t_date f author authorId authorColor in
  field "id" info = Some (JStr (number_toString t_id))
  /\ field "name" info = Some (JStr (file_originalname f))
  /\ field "size" info = Some (JNum (Z.of_N (file_size f)))
  /\ field "type" info = Some (JStr (file_mimetype f))
  /\ field "uploadDate" info = Some (JStr (toLocaleString_ruRU t_date))
  /\ field "author" info = author
  /\ field "authorId" info = authorId
  /\ field "authorColor" info = authorColor
  /\ field "filename" info = Some (JStr (file_filename f))
  /\ field "path" info = Some (JStr (file_path f)).
Proof.
  destruct author, authorId, authorColor; cbn; repeat split; reflexivity.
Qed.

Lemma fileInfo_record (t_id t_date : N) (f : MulterFile) (author authorId authorColor : value) :
  FileRecord (fileInfo t_id t_date f author authorId authorColor) = true.
Proof.
  destruct author, authorId, authorColor; reflexivity.
Qed.

(** ** Traces *)

Lemma mutations_app (t1 t2 : list event) :
  mutations (t1 ++ t2) = mutations t1 ++ mutations t2.
Proof. apply List.filter_app. Qed.

Lemma mutations_read_log (w : World) : mutations (read_log w) = [].
Proof.
  unfold read_log. destruct (db w) as [| |[|j]]; reflexivity.
Qed.


(** ** Read-only computations *)

Lemma read_only_ret {A} (a : A) : read_only (ret a).
Proof. by intros w. Qed.

Lemma read_only_lift {A} (r : Res A) : read_only (lift r).
Proof. by intros w. Qed.

Lemma read_only_bind {A B} (m : M A) (k : A -> M B) :
  read_only m -> (forall a, read_only (k a)) -> read_only (bind m k).
Proof.
  intros Hm Hk w. specialize (Hm w). unfold bind.
  destruct (m w) as [[[a|e] w1] t1]; cbn in Hm; destruct Hm as [-> Ht1].
  - specialize (Hk a w). destruct (k a w) as [[r w2] t2]; cbn in *.
    destruct Hk as [-> Ht2]. split; [done|].
    by rewrite mutations_app, Ht1, Ht2.
  - by split.
Qed.

Lemma read_only_try_catch {A} (m : M A) (h : exn -> M A) :
  read_only m -> (forall e, read_only (h e)) -> read_only (try_catch m h).
Proof.
  intros Hm Hh w. specialize (Hm w). unfold try_catch.
  destruct (m w) as [[[a|e] w1] t1]; cbn in Hm; destruct Hm as [-> Ht1].
  - by split.
  - specialize (Hh e w). destruct (h e w) as [[r w2] t2]; cbn in *.
    destruct Hh as [-> Ht2]. split; [done|].
    by rewrite mutations_app, Ht1, Ht2.
Qed.

Lemma read_only_readFiles : read_only readFiles.
Proof.
  intros w. rewrite readFiles_run. split; [done|]. apply mutations_read_log.
Qed.

Lemma read_only_existsSync (p : string) : read_only (fs_existsSync p).
Proof. by intros w. Qed.

Lemma read_only_get_api_files : read_only get_api_files.
Proof.
  apply read_only_bind; [apply read_only_readFiles|].
  intros files. apply read_only_ret.
Qed.

Lemma read_only_get_api_download (id : string) : read_only (get_api_download id).
Proof.
  unfold get_api_download.
  apply read_only_bind; [apply read_only_readFiles|]. intros files.
  apply read_only_bind; [apply read_only_lift|]. intros file.
  destruct (negb (truthy file)); [apply read_only_ret|].
  apply read_only_bind; [apply read_only_lift|]. intros filename.
  apply read_only_bind; [apply read_only_lift|]. intros filePath.
  apply read_only_bind; [apply read_only_existsSync|]. intros present.
  destruct (negb present); [apply read_only_ret|].
  apply read_only_bind; [apply read_only_lift|]. intros name.
  apply read_only_ret.
Qed.

Lemma read_only_route (h : M Response) : read_only h -> read_only (route h).
Proof.
  intros Hh. apply read_only_try_catch; [done|]. intros e. apply read_only_ret.
Qed.

(** A route answers what its handler answers when the handler returns. *)
Lemma route_returns (h : M Response) (w w' : World) (r : Response) (t : list event) :
  h w = (Ok r, w', t) -> route h w = (Ok r, w', t).
Proof.
  intros Hh. unfold route, try_catch. by rewrite Hh.
Qed.

(** ** The first record with an id *)

Lemma find_first_split (id : string) (l : list json) (r : json) :
  List.find (id_is id) l = Some r ->
  exists l1 l2, l = l1 ++ r :: l2
    /\ forallb (fun x => negb (id_is id x)) l1 = true
    /\ id_is id r = true.
Proof.
  induction l as [|x l IH]; [discriminate|]. cbn.
  destruct (id_is id x) eqn:Hx.
  - intros [= ->]. by exists [], l.
  - intros Hfind. destruct (IH Hfind) as (l1 & l2 & -> & Hl1 & Hr).
    exists (x :: l1), l2. cbn. by rewrite Hx.
Qed.

Lemma no_record_with_id (id : string) (l : list json) :
  (forall r, r ∈ l -> id_is id r = false) ->
  forallb (fun x => negb (id_is id x)) l = true.
Proof.
  intros Hno. apply forallb_forall. intros x Hx.
  apply negb_true_iff, Hno. by apply list_elem_of_In.
Qed.

Lemma first_record_resolves (id : string) (l : list json) (r : json) :
  forallb FileRecord l = true ->
  List.find (id_is id) l = Some r ->
  exists l1 l2 fn, l = l1 ++ r :: l2
    /\ Forall (fun y => has_id id y = Ok false) l1
    /\ has_id id r = Ok true
    /\ id_is id r = true
    /\ field "filename" r = Some (JStr fn).
Proof.
  intros Hrec Hfind.
  destruct (find_first_split id l r Hfind) as (l1 & l2 & -> & Hl1 & Hr).
  rewrite forallb_app in Hrec. apply andb_prop in Hrec as [Hrec1 Hrec2].
  cbn in Hrec2. apply andb_prop in Hrec2 as [Hrecr _].
  assert (exists fn, field "filename" r = Some (JStr fn)) as [fn Hfn].
  { destruct r; try discriminate. unfold FileRecord in Hrecr.
    destruct (field "filename" (JObj props)) as [[]|]; cbn in Hrecr;
      rewrite ?andb_false_r in Hrecr; try discriminate. eauto. }
  exists l1, l2, fn. repeat split; try done.
  - by apply records_has_id.
  - rewrite (has_id_record id r Hrecr). by f_equal.
Qed.

Lemma wrote_is_mutation (t : text) (tr : list event) :
  WroteDb t ∈ tr -> WroteDb t ∈ mutations tr.
Proof.
  intros Hin. apply list_elem_of_In, filter_In. split; [|done].
  by apply list_elem_of_In.
Qed.

Lemma calls_read_only (h : N -> M Response) (clock : list N) (w : World) :
  (forall t, final (h t w) = w) ->
  calls h clock w = (map (fun t => result (h t w)) clock, w).
Proof.
  intros Hh. induction clock as [|t later IH]; [done|].
  cbn [calls map]. specialize (Hh t). unfold final, result in *.
  destruct (h t w) as [[r w1] tr]. cbn in Hh. subst w1. by rewrite IH.
Qed.

(** * The properties of the handlers *)


(** C1: when the upload handler receives a file and a user field that is
    a JSON object, and its write of the metadata document succeeds, then
    the metadata list [l] it read has become [l ++ [info]] for one new
    FileRecord [info] whose name, size and type are the original name,
    byte length and MIME type of the file and whose authorId is the id
    of the user object; the handler answers 200 with [info], and the
    listing, which answered [l] before, answers [l ++ [info]]
    afterwards. *)
Theorem upload_appends_one_record (t_id t_date : N) (f : MulterFile)
    (props : list (string * json)) (w : World) :
  (exists t, WroteDb t ∈
     trace (post_api_upload t_id t_date (Some f) (Some (Encodes (JObj props))) w)) ->
  exists l info,
    result (readFiles w) = Ok (JArr l)
    /\ result (post_api_upload t_id t_date (Some f) (Some (Encodes (JObj props))) w)
       = Ok (SendJson 200 info)
    /\ result (readFiles
         (final (post_api_upload t_id t_date (Some f) (Some (Encodes (JObj props))) w)))
       = Ok (JArr (l ++ [info]))
    /\ FileRecord info = true
    /\ field "name" info = Some (JStr (file_originalname f))
    /\ field "size" info = Some (JNum (Z.of_N (file_size f)))
    /\ field "type" info = Some (JStr (file_mimetype f))
    /\ field "authorId" info = assoc "id" props
    /\ result (route_files w) = Ok (SendJson 200 (JArr l))
    /\ result (route_files
         (final (post_api_upload t_id t_date (Some f) (Some (Encodes (JObj props))) w)))
       = Ok (SendJson 200 (JArr (l ++ [info]))).
Proof.
  intros [t Hwrote]. apply wrote_is_mutation in Hwrote.
  destruct (stored w) as [| b | n | s | l | ps] eqn:Hst;
    try (rewrite upload_not_array in Hwrote by (by rewrite Hst);
         cbn [trace snd] in Hwrote;
         rewrite mutations_app, mutations_read_log in Hwrote;
         by apply elem_of_nil in Hwrote).
  rewrite (upload_array _ _ _ (JObj props) _ _ ltac:(done) Hst) in Hwrote |- *.
  cbv zeta in *. cbn [field] in *.
  destruct (db_writable w) eqn:Hw.
  - set (info := fileInfo t_id t_date f (assoc "name" props) (assoc "id" props)
                   (assoc "color" props)).
    pose proof (fileInfo_fields t_id t_date f (assoc "name" props)
                  (assoc "id" props) (assoc "color" props)) as Hfields.
    cbv zeta in Hfields. fold info in Hfields.
    destruct Hfields as (_ & Hname & Hsize & Htype & _ & _ & Hauthor & _).
    exists l, info. cbn [result final fst snd].
    unfold route_files. rewrite !(route_returns get_api_files _ _ _ _
      ltac:(unfold get_api_files, bind; rewrite readFiles_run; reflexivity)).
    rewrite !readFiles_run. cbn [result fst]. rewrite Hst.
    repeat split; try done. apply fileInfo_record.
  - cbn [trace snd] in Hwrote.
    rewrite mutations_app, mutations_read_log in Hwrote.
    by apply elem_of_nil in Hwrote.
Qed.


(** Every run of the delete handler is one of three. *)
Lemma delete_cases (id : string) (body : list (string * json)) (w : World) :
  delete_api_files id body w
    = (Ok delete_failed, w, read_log w ++ [ConsoleError "Delete error:"])
  \/ delete_api_files id body w = (Ok not_found, w, read_log w)
  \/ (exists l1 r l2, stored w = JArr (l1 ++ r :: l2)
        /\ Forall (fun y => has_id id y = Ok false) l1
        /\ has_id id r = Ok true
        /\ delete_api_files id body w = delete_outcome body w l1 l2 r).
Proof.
  destruct (stored w) as [| b | n | s | l | ps] eqn:Hst;
    try (left; apply delete_not_array; by rewrite Hst).
  destruct (findIndex_from (has_id id) l 0) as [z|e] eqn:Hfind.
  - destruct (findIndex_from_inv _ l 0 z ltac:(lia) Hfind)
      as [[_ Hall] | (l1 & r & l2 & -> & Hl1 & Hr & _)].
    + right. left. by apply (delete_unknown id body w l).
    + right. right. exists l1, r, l2. repeat split; try done.
      by apply delete_first.
  - left. by apply (delete_lookup_throws id body w l e).
Qed.

Lemma delete_outcome_returns (body : list (string * json)) (w : World)
    (l1 l2 : list json) (r : json) :
  exists resp w' t, delete_outcome body w l1 l2 r = (Ok resp, w', t).
Proof.
  unfold delete_outcome.
  destruct (negb (strict_eq (field "authorId" r) (assoc "userId" body))); [eauto|].
  destruct (field "filename" r) as [[| | |fn| |]|]; eauto.
  destruct (db_writable w); eauto.
Qed.

(** The delete handler catches what it throws: the error middleware never
    sees it. *)
Lemma route_delete_handler (id : string) (body : list (string * json)) (w : World) :
  route_delete id body w = delete_api_files id body w.
Proof.
  unfold route_delete.
  destruct (delete_cases id body w)
    as [Hrun | [Hrun | (l1 & r & l2 & _ & _ & _ & Hrun)]].
  - by rewrite (route_returns _ _ _ _ _ Hrun).
  - by rewrite (route_returns _ _ _ _ _ Hrun).
  - destruct (delete_outcome_returns body w l1 l2 r) as (resp & w' & t & Hout).
    rewrite Hout in Hrun. by rewrite (route_returns _ _ _ _ _ Hrun).
Qed.


(** C4: on a metadata list of records, when the first record with the id
    has an authorId that is not strictly equal to the userId of the
    request, the delete handler answers 403, and when no record has the
    id it answers 404; in both cases the metadata document and the blobs
    are what they were and nothing was written or removed. *)
Theorem delete_refused_or_unknown (id : string) (body : list (string * json))
    (w : World) (l : list json) :
  metadata_list w l ->
  (forall r, List.find (id_is id) l = Some r ->
     strict_eq (field "authorId" r) (assoc "userId" body) = false ->
     result (route_delete id body w) = Ok forbidden
     /\ http_status forbidden = 403%N
     /\ final (route_delete id body w) = w
     /\ mutations (trace (route_delete id body w)) = [])
  /\ ((forall r, r ∈ l -> id_is id r = false) ->
     result (route_delete id body w) = Ok not_found
     /\ http_status not_found = 404%N
     /\ final (route_delete id body w) = w
     /\ mutations (trace (route_delete id body w)) = []).
Proof.
  intros Hmeta. pose proof (stored_metadata w l Hmeta) as Hst.
  destruct Hmeta as [_ Hrec]. split.
  - intros r Hfind Hother.
    destruct (first_record_resolves id l r Hrec Hfind)
      as (l1 & l2 & fn & -> & Hl1 & Hr & _ & Hfn).
    pose proof (delete_first id body w l1 l2 r Hst Hl1 Hr) as Hrun.
    unfold delete_outcome in Hrun. rewrite Hother in Hrun. cbn [negb] in Hrun.
    unfold route_delete. rewrite (route_returns _ _ _ _ _ Hrun).
    cbn [result final trace fst snd]. by rewrite mutations_read_log.
  - intros Hno. unfold route_delete.
    rewrite (route_returns _ _ _ _ _
      (delete_unknown id body w l Hst
         (records_has_id id l Hrec (no_record_with_id id l Hno)))).
    cbn [result final trace fst snd]. by rewrite mutations_read_log.
Qed.

(** C8: whenever the delete handler answers 200, the metadata list [l] it
    read had a first record with the id at some position [i], and the
    list it wrote is [l] with the element at position [i] removed: the
    elements before [i] keep their positions, those after move down by
    one, each as it was. *)
Theorem delete_removes_one_position (id : string) (body : list (string * json))
    (w : World) (resp : Response) :
  result (route_delete id body w) = Ok resp ->
  http_status resp = 200%N ->
  exists (l : list json) (i : nat) (r : json),
    result (readFiles w) = Ok (JArr l)
    /\ l !! i = Some r
    /\ id_is id r = true
    /\ (forall j x, (j < i)%nat -> l !! j = Some x -> id_is id x = false)
    /\ db (final (route_delete id body w)) = Content (Encodes (JArr (delete i l)))
    /\ result (readFiles (final (route_delete id body w))) = Ok (JArr (delete i l))
    /\ length (delete i l) = pred (length l)
    /\ (forall j, (j < i)%nat -> delete i l !! j = l !! j)
    /\ (forall j, (i <= j)%nat -> delete i l !! j = l !! S j).
Proof.
  intros Hres Hstatus. rewrite route_delete_handler in Hres |- *.
  destruct (delete_cases id body w)
    as [Hrun | [Hrun | (l1 & r & l2 & Hst & Hl1 & Hr & Hrun)]];
    rewrite Hrun in Hres |- *;
    cbn [result fst] in Hres; try (injection Hres as <-; discriminate Hstatus).
  revert Hres. unfold delete_outcome.
  destruct (negb (strict_eq (field "authorId" r) (assoc "userId" body)));
    [intros [= <-]; discriminate Hstatus|].
  destruct (field "filename" r) as [[| | |fn| |]|];
    try (intros [= <-]; discriminate Hstatus).
  destruct (db_writable w); [|intros [= <-]; discriminate Hstatus].
  intros _. exists (l1 ++ r :: l2), (length l1), r.
  rewrite !readFiles_run. cbn [result final fst snd db]. unfold stored at 2.
  cbn [db]. rewrite Hst, delete_middle.
  repeat split; try done.
  - by apply list_lookup_middle.
  - by apply (has_id_inv id r true).
  - intros j x Hj Hx. rewrite lookup_app_l in Hx by done.
    rewrite Forall_forall in Hl1. apply (has_id_inv id x false), Hl1.
    apply list_elem_of_lookup. eauto.
  - rewrite !length_app. cbn. lia.
  - intros j Hj. by rewrite !lookup_app_l.
  - intros j Hj. rewrite !lookup_app_r by lia.
    replace (S j - length l1)%nat with (S (j - length l1)) by lia. done.
Qed.

(** C9: the listing route and the download route leave the metadata
    document and the blobs exactly as they were, for every state and
    every id, and perform no write and no removal. *)
Theorem listing_and_download_change_nothing (id : string) (w : World) :
  final (route_files w) = w
  /\ mutations (trace (route_files w)) = []
  /\ final (route_download id w) = w
  /\ mutations (trace (route_download id w)) = [].
Proof.
  destruct (read_only_route _ read_only_get_api_files w) as [Hf Ht].
  destruct (read_only_route _ (read_only_get_api_download id) w) as [Hf' Ht'].
  done.
Qed.


(** C6: with no write in between, repeated calls of the listing route
    return the same answer each time, the stored list, and leave the
    state as it was; repeated calls of the status route leave the state
    as it was and return status 200 with the same [status] and [message]
    each time, and a [timestamp] that renders the clock reading of the
    call. *)
Theorem listing_repeats_status_follows_clock (clock : list N) (w : World) :
  calls (fun _ => route_files) clock w
    = (map (fun _ => Ok (SendJson 200 (stored w))) clock, w)
  /\ calls route_status clock w
    = (map (fun t => Ok (SendJson 200
              (JObj [("status", JStr "OK");
                     ("message", JStr "Сервер файлообменника работает");
                     ("timestamp", JStr (toISOString t))]))) clock, w).
Proof.
  split.
  - rewrite calls_read_only.
    + f_equal. apply map_ext. intros _. unfold route_files.
      rewrite (route_returns get_api_files w w (SendJson 200 (stored w)) (read_log w ++ [])).
      * done.
      * unfold get_api_files, bind. by rewrite readFiles_run.
    + intros _. apply (read_only_route _ read_only_get_api_files w).
  - by rewrite calls_read_only.
Qed.

(** C7: run with no file in [req.file], the upload handler answers 400
    with an error payload, whatever the user field; run with a file in
    [req.file] and a user field that is not valid JSON, it answers 500
    from its own catch-all; in both cases it leaves the metadata
    document and the blobs as it found them, so no record is
    appended. *)
Theorem upload_rejections (t_id t_date : N) (user_field : option text) (w : World) :
  (result (post_api_upload t_id t_date None user_field w) = Ok no_file
   /\ http_status no_file = 400%N
   /\ final (post_api_upload t_id t_date None user_field w) = w)
  /\ (forall f, JSON_parse user_field = Throw SyntaxError ->
        result (post_api_upload t_id t_date (Some f) user_field w) = Ok upload_failed
        /\ http_status upload_failed = 500%N
        /\ final (post_api_upload t_id t_date (Some f) user_field w) = w
        /\ mutations (trace (post_api_upload t_id t_date (Some f) user_field w)) = []).
Proof.
  split; [done|]. intros f Hparse.
  by rewrite (upload_bad_user t_id t_date f user_field w _ Hparse).
Qed.

(** ** The records the service itself creates *)

Lemma append_assoc (a b c : string) : (a +:+ b) +:+ c = a +:+ b +:+ c.
Proof.
  induction a as [|x a IH]; [done|].
  change (String x ((a +:+ b) +:+ c) = String x (a +:+ b +:+ c)). by f_equal.
Qed.

Lemma append_nonempty (a b : string) : a <> "" -> String.eqb (a +:+ b) "" = false.
Proof.
  by destruct a.
Qed.

Lemma join_segments_uploads (fn : string) :
  join_segments [uploadsDir; fn] = blob_path fn.
Proof.
  unfold blob_path, uploadsDir. cbn [join_segments].
  destruct (String.eqb_spec fn "") as [->|Hfn].
  - cbn. destruct (String.eqb_spec dirname "") as [->|Hdir]; [done|].
    by rewrite append_nonempty.
  - destruct (String.eqb_spec dirname "") as [->|Hdir].
    + cbn. by destruct fn.
    + cbn. rewrite append_nonempty by done.
      destruct fn as [|c fn']; [done|]. cbn. by rewrite append_assoc.
Qed.

(** What multer stores and reports for a file within the limit: the blob
    is where the download and delete handlers will look for it, and the
    [path] it reports is that place. *)
Lemma upload_single_stores (now : N) (p : FilePart) (w : World) :
  (N.of_nat (String.length (part_content p)) <= fileSize_limit)%N ->
  exists f, result (upload_single now (Some p) w) = Ok (Some f)
    /\ file_originalname f = part_name p
    /\ file_mimetype f = part_type p
    /\ file_size f = N.of_nat (String.length (part_content p))
    /\ file_path f = blob_path (file_filename f)
    /\ blobs (final (upload_single now (Some p) w)) !! blob_path (file_filename f)
       = Some (part_content p).
Proof.
  intros Hsize. unfold upload_single.
  destruct (N.ltb_spec fileSize_limit (N.of_nat (String.length (part_content p))));
    [lia|].
  unfold bind, fs_storeBlob, ret. rewrite join_segments_uploads.
  eexists. cbn [result final fst snd blobs]. split; [reflexivity|].
  cbn [file_originalname file_mimetype file_size file_path file_filename].
  repeat split. apply lookup_insert_eq.
Qed.






(** * Further properties of the code *)

(** ** Resolving an id *)

Lemma findIndex_from_throws (p : json -> Res bool) (l : list json) (i : Z) (e : exn) :
  findIndex_from p l i = Throw e -> find_from p l = Throw e.
Proof.
  revert i. induction l as [|x l IH]; intros i; cbn; [discriminate|].
  destruct (p x) as [[|]|e0]; [discriminate | apply IH | by intros [= ->]].
Qed.

(** X2: for every value the metadata document may denote, [find] in the
    download handler and [findIndex] in the delete handler resolve an id
    to the same thing: when [findIndex] returns an index, [find] returns
    the element at that index ([undefined] for [-1]), and when one throws
    the other throws the same error. *)
Theorem find_agrees_with_findIndex (id : string) (files : json) :
  match array_findIndex (has_id id) files with
  | Ok z =>
      exists l, files = JArr l
        /\ array_find (has_id id) files = Ok (array_get l z)
        /\ (z = (-1)%Z \/ (0 <= z < Z.of_nat (length l))%Z)
  | Throw e => array_find (has_id id) files = Throw e
  end.
Proof.
  unfold array_findIndex, array_find.
  destruct files as [| b | n | s | l | props]; cbn [as_array]; try done.
  destruct (findIndex_from (has_id id) l 0) as [z|e] eqn:Hfind.
  - exists l. split; [done|].
    destruct (findIndex_from_inv _ l 0 z ltac:(lia) Hfind)
      as [[-> Hall] | (l1 & r & l2 & -> & Hl1 & Hr & ->)].
    + split; [|by left]. by rewrite (find_from_none _ _ Hall).
    + rewrite (find_from_first _ _ _ _ Hl1 Hr), array_get_middle.
      split; [done|]. right. rewrite length_app. cbn [length]. lia.
  - by apply (findIndex_from_throws _ _ 0).
Qed.

(** ** The upload route, evaluated *)

Lemma multer_file_path (now : N) (p : FilePart) :
  file_path (multer_file now p) = blob_path (file_filename (multer_file now p)).
Proof. apply join_segments_uploads. Qed.

Lemma upload_single_within (now : N) (p : FilePart) (w : World) :
  (N.of_nat (String.length (part_content p)) <= fileSize_limit)%N ->
  upload_single now (Some p) w =
    (Ok (Some (multer_file now p)),
     with_blob (file_path (multer_file now p)) (part_content p) w,
     [StoredBlob (file_path (multer_file now p))]).
Proof.
  intros Hsize. unfold upload_single.
  destruct (N.ltb_spec fileSize_limit (N.of_nat (String.length (part_content p))));
    [lia|].
  reflexivity.
Qed.

Lemma upload_single_over (now : N) (p : FilePart) (w : World) :
  (fileSize_limit < N.of_nat (String.length (part_content p)))%N ->
  upload_single now (Some p) w =
    (Throw (MulterError "LIMIT_FILE_SIZE"),
     mkWorld (db w) (db_writable w)
       (delete (file_path (multer_file now p))
          (<[file_path (multer_file now p) := part_content p]> (blobs w))),
     [StoredBlob (file_path (multer_file now p));
      Unlinked (file_path (multer_file now p))]).
Proof.
  intros Hsize. unfold upload_single.
  destruct (N.ltb_spec fileSize_limit (N.of_nat (String.length (part_content p))));
    [|lia].
  unfold bind, fs_storeBlob, fs_unlinkSync, throw, multer_file.
  cbn [blobs db db_writable file_path]. by rewrite lookup_insert_eq.
Qed.

(** The upload handler catches what it throws. *)
Lemma post_api_upload_returns (t_id t_date : N) (file : option MulterFile)
    (user_field : option text) (w : World) :
  exists resp w' t,
    post_api_upload t_id t_date file user_field w = (Ok resp, w', t).
Proof.
  unfold post_api_upload, try_catch.
  match goal with |- context [match ?m w with _ => _ end] => destruct (m w) as [[[resp|e] w1] t1] end.
  - eauto.
  - cbn. eauto.
Qed.

Lemma route_upload_within (t_file t_id t_date : N) (p : FilePart)
    (user_field : option text) (w : World) :
  (N.of_nat (String.length (part_content p)) <= fileSize_limit)%N ->
  route_upload t_file t_id t_date (mkUploadRequest (Some p) user_field) w =
    let stored_at := file_path (multer_file t_file p) in
    match post_api_upload t_id t_date (Some (multer_file t_file p)) user_field
            (with_blob stored_at (part_content p) w) with
    | (r, w', t) => (r, w', StoredBlob stored_at :: t)
    end.
Proof.
  intros Hsize. unfold route_upload, route, try_catch, bind.
  cbn [upload_part upload_user]. rewrite (upload_single_within _ _ _ Hsize).
  cbv zeta.
  destruct (post_api_upload_returns t_id t_date (Some (multer_file t_file p)) user_field
              (with_blob (file_path (multer_file t_file p)) (part_content p) w))
    as (resp & w' & t & ->).
  reflexivity.
Qed.

Lemma route_upload_over (t_file t_id t_date : N) (p : FilePart)
    (user_field : option text) (w : World) :
  (fileSize_limit < N.of_nat (String.length (part_content p)))%N ->
  result (route_upload t_file t_id t_date (mkUploadRequest (Some p) user_field) w)
    = Ok (SendJson 400 (error_body "Файл слишком большой"))
  /\ db (final (route_upload t_file t_id t_date (mkUploadRequest (Some p) user_field) w))
     = db w.
Proof.
  intros Hsize. unfold route_upload, route, try_catch, bind.
  cbn [upload_part upload_user]. by rewrite (upload_single_over _ _ _ Hsize).
Qed.

Lemma route_upload_no_file (t_file t_id t_date : N) (user_field : option text) (w : World) :
  route_upload t_file t_id t_date (mkUploadRequest None user_field) w
    = (Ok no_file, w, []).
Proof. reflexivity. Qed.

Lemma upload_not_array_any (t_id t_date : N) (f : MulterFile)
    (user_field : option text) (w : World) :
  as_array (stored w) = Throw TypeError ->
  result (post_api_upload t_id t_date (Some f) user_field w) = Ok upload_failed
  /\ final (post_api_upload t_id t_date (Some f) user_field w) = w.
Proof.
  intros Hst.
  destruct (JSON_parse user_field) as [user|e] eqn:Hparse;
    [|by rewrite (upload_bad_user _ _ _ _ _ _ Hparse)].
  destruct user_field as [[|user']|]; try discriminate Hparse.
  injection Hparse as ->.
  assert (user = JNull \/ user <> JNull) as [->|Huser]
    by (destruct user; auto); [done|].
  unfold post_api_upload, try_catch, bind, lift. cbn [JSON_parse].
  assert (forall k, get_prop (Some user) k = Ok (field k user)) as Hget
    by (intros k; by destruct user).
  rewrite !Hget, readFiles_run. unfold array_push. by rewrite Hst.
Qed.

Lemma strict_eq_not_primitive (a b : value) :
  primitive a = false -> strict_eq a b = false.
Proof.
  by destruct a as [[]|].
Qed.

Lemma find_from_some (p : json -> Res bool) (l : list json) (x : json) :
  find_from p l = Ok (Some x) -> p x = Ok true.
Proof.
  induction l as [|y l IH]; cbn; [discriminate|].
  destruct (p y) as [[|]|e] eqn:Hy; [by intros [= <-] | done | discriminate].
Qed.

(** ** Uploads through the route *)

(** X3: a file over the limit of 10 MiB never reaches the upload handler:
    the route answers 400 with the message of the error middleware,
    whatever the user field is, and the metadata document is what it
    was. *)
Theorem upload_over_limit (t_file t_id t_date : N) (p : FilePart)
    (user_field : option text) (w : World) :
  (fileSize_limit < N.of_nat (String.length (part_content p)))%N ->
  result (route_upload t_file t_id t_date (mkUploadRequest (Some p) user_field) w)
    = Ok (SendJson 400 (error_body "Файл слишком большой"))
  /\ db (final (route_upload t_file t_id t_date (mkUploadRequest (Some p) user_field) w))
     = db w.
Proof. apply route_upload_over. Qed.

(** X4: when the write of the metadata document fails, an upload that was
    otherwise fine (a file below the limit under a name without
    separator, a user field that is JSON other than null, a document
    that reads as a list) is answered 500 with the message for a failed
    save, the metadata document is what it was, and the blob that multer
    stored stays where it was stored. *)
Theorem upload_unsaved_leaves_blob (t_file t_id t_date : N) (p : FilePart)
    (user : json) (w : World) (l : list json) :
  (N.of_nat (String.length (part_content p)) < fileSize_limit)%N ->
  no_slash (part_name p) = true ->
  user <> JNull ->
  result (readFiles w) = Ok (JArr l) ->
  db_writable w = false ->
  result (route_upload t_file t_id t_date
            (mkUploadRequest (Some p) (Some (Encodes user))) w) = Ok save_failed
  /\ db (final (route_upload t_file t_id t_date
                  (mkUploadRequest (Some p) (Some (Encodes user))) w)) = db w
  /\ blobs (final (route_upload t_file t_id t_date
                     (mkUploadRequest (Some p) (Some (Encodes user))) w))
       !! blob_path (number_toString t_file +:+ "-" +:+ part_name p)
     = Some (part_content p).
Proof.
  intros Hbelow _ Huser Hread Hw. pose proof (N.lt_le_incl _ _ Hbelow) as Hsize.
  rewrite readFiles_run in Hread. injection Hread as Hst.
  rewrite (route_upload_within _ _ _ _ _ _ Hsize). cbv zeta.
  rewrite (upload_array _ _ _ _ _ l Huser) by done.
  cbv zeta. cbn [db_writable with_blob]. rewrite Hw.
  cbn [result final fst snd db blobs]. repeat split.
  rewrite multer_file_path. apply lookup_insert_eq.
Qed.

(** X5: an upload followed by a download of the new id gives back what was
    uploaded: when the file is below the limit and the name multer
    reports for it has no separator, the user field is JSON other than
    null, the write succeeds and no record of the list has the new id
    yet, the upload answers 200 and the download of that id then sends
    the blob with exactly the uploaded content, under the name multer
    reported ([req.file.originalname]). *)
Theorem upload_then_download (t_file t_id t_date : N) (p : FilePart)
    (user : json) (w : World) (l : list json) :
  (N.of_nat (String.length (part_content p)) < fileSize_limit)%N ->
  no_slash (part_name p) = true ->
  user <> JNull ->
  metadata_list w l ->
  (forall r, r ∈ l -> id_is (number_toString t_id) r = false) ->
  db_writable w = true ->
  exists info stored_at,
    result (route_upload t_file t_id t_date
              (mkUploadRequest (Some p) (Some (Encodes user))) w)
      = Ok (SendJson 200 info)
    /\ result (route_download (number_toString t_id)
         (final (route_upload t_file t_id t_date
                   (mkUploadRequest (Some p) (Some (Encodes user))) w)))
       = Ok (SendDownload stored_at (Some (JStr (part_name p))))
    /\ blobs (final (route_upload t_file t_id t_date
                       (mkUploadRequest (Some p) (Some (Encodes user))) w))
         !! stored_at
       = Some (part_content p).
Proof.
  intros Hbelow _ Huser Hmeta Hfresh Hw.
  pose proof (N.lt_le_incl _ _ Hbelow) as Hsize.
  pose proof (stored_metadata w l Hmeta) as Hst. destruct Hmeta as [_ Hrec].
  rewrite (route_upload_within _ _ _ _ _ _ Hsize). cbv zeta.
  rewrite (upload_array _ _ _ _ _ l Huser) by done.
  cbv zeta. cbn [db_writable with_blob]. rewrite Hw.
  cbn [result final fst snd blobs].
  set (f := multer_file t_file p).
  set (info := fileInfo t_id t_date f (field "name" user) (field "id" user)
                 (field "color" user)).
  pose proof (fileInfo_fields t_id t_date f (field "name" user) (field "id" user)
                (field "color" user)) as Hfields.
  cbv zeta in Hfields. fold info in Hfields.
  destruct Hfields as (Hid & Hname & _ & _ & _ & _ & _ & _ & Hfn & _).
  pose proof (multer_file_path t_file p) as Hpath. fold f in Hpath.
  exists info, (blob_path (file_filename f)). split; [done|]. split.
  - unfold route_download.
    erewrite route_returns; [|eapply (download_first _ _ l [] info (file_filename f))].
    + cbn [result fst blobs]. rewrite <- Hpath. unfold with_blob. cbn [blobs].
      rewrite bool_decide_eq_true_2 by (rewrite lookup_insert_eq; eauto).
      by rewrite Hname.
    + done.
    + by apply records_has_id, no_record_with_id.
    + rewrite (has_id_record _ info (fileInfo_record _ _ _ _ _ _)). f_equal.
      unfold id_is. rewrite Hid. cbn. apply String.eqb_refl.
    + done.
  - rewrite <- Hpath. unfold with_blob. cbn [blobs]. apply lookup_insert_eq.
Qed.

(** X6: an upload followed by a delete with the uploader's id undoes the
    upload: under the conditions of the round trip above, when the id of
    the user is strictly equal to the userId of the delete request, the
    delete answers 200, the metadata list is again the list before the
    upload, and the blob is gone. *)
Theorem upload_then_delete (t_file t_id t_date : N) (p : FilePart)
    (user : json) (body : list (string * json)) (w : World) (l : list json) :
  (N.of_nat (String.length (part_content p)) <= fileSize_limit)%N ->
  user <> JNull ->
  metadata_list w l ->
  (forall r, r ∈ l -> id_is (number_toString t_id) r = false) ->
  db_writable w = true ->
  strict_eq (field "id" user) (assoc "userId" body) = true ->
  result (route_delete (number_toString t_id) body
            (final (route_upload t_file t_id t_date
                      (mkUploadRequest (Some p) (Some (Encodes user))) w)))
    = Ok deleted
  /\ result (readFiles (final (route_delete (number_toString t_id) body
       (final (route_upload t_file t_id t_date
                 (mkUploadRequest (Some p) (Some (Encodes user))) w)))))
     = Ok (JArr l)
  /\ blobs (final (route_delete (number_toString t_id) body
       (final (route_upload t_file t_id t_date
                 (mkUploadRequest (Some p) (Some (Encodes user))) w))))
       !! blob_path (number_toString t_file +:+ "-" +:+ part_name p)
     = None.
Proof.
  intros Hsize Huser Hmeta Hfresh Hw Hown.
  pose proof (stored_metadata w l Hmeta) as Hst. destruct Hmeta as [_ Hrec].
  rewrite (route_upload_within _ _ _ _ _ _ Hsize). cbv zeta.
  rewrite (upload_array _ _ _ _ _ l Huser) by done.
  cbv zeta. cbn [db_writable with_blob]. rewrite Hw.
  cbn [final fst snd].
  set (f := multer_file t_file p).
  set (info := fileInfo t_id t_date f (field "name" user) (field "id" user)
                 (field "color" user)).
  pose proof (fileInfo_fields t_id t_date f (field "name" user) (field "id" user)
                (field "color" user)) as Hfields.
  cbv zeta in Hfields. fold info in Hfields.
  destruct Hfields as (Hid & _ & _ & _ & _ & _ & Hauthor & _ & Hfn & _).
  rewrite route_delete_handler.
  rewrite (delete_first _ _ _ l [] info).
  - unfold delete_outcome. rewrite Hauthor, Hown, Hfn. cbn [negb db_writable].
    cbn [result final fst snd blobs]. rewrite readFiles_run, app_nil_r.
    repeat split. apply lookup_delete_eq.
  - done.
  - by apply records_has_id, no_record_with_id.
  - rewrite (has_id_record _ info (fileInfo_record _ _ _ _ _ _)). f_equal.
    unfold id_is. rewrite Hid. cbn. apply String.eqb_refl.
Qed.

(** ** Who may delete *)

(** X7: a record whose authorId is an array or an object can be deleted by
    nobody: whatever the userId of the request, the comparison with
    [!==] holds, the delete handler answers 403 and nothing changes. *)
Theorem structured_author_never_deleted (id : string) (body : list (string * json))
    (w : World) (l : list json) (r : json) :
  metadata_list w l ->
  List.find (id_is id) l = Some r ->
  primitive (field "authorId" r) = false ->
  result (route_delete id body w) = Ok forbidden
  /\ final (route_delete id body w) = w.
Proof.
  intros Hmeta Hfind Hauthor. pose proof (stored_metadata w l Hmeta) as Hst.
  destruct Hmeta as [_ Hrec].
  destruct (first_record_resolves id l r Hrec Hfind)
    as (l1 & l2 & fn & -> & Hl1 & Hr & _ & Hfn).
  rewrite route_delete_handler, (delete_first id body w l1 l2 r Hst Hl1 Hr).
  unfold delete_outcome. by rewrite (strict_eq_not_primitive _ _ Hauthor).
Qed.


(** ** After a delete *)



(** ** Documents that are not what the service wrote *)

(** X11: when the metadata document denotes JSON that is not an array, the
    listing route answers 200 with that value as it is; the upload
    handler, run with a file in [req.file], answers 500 and leaves the
    file system as it found it (with the blob multer stored before it
    ran); the download route and the delete route answer 500 and leave
    the file system as it was. *)
Theorem non_list_document (id : string) (body : list (string * json))
    (t_id t_date : N) (f : MulterFile) (user_field : option text) (w : World) :
  as_array (stored w) = Throw TypeError ->
  result (route_files w) = Ok (SendJson 200 (stored w))
  /\ (result (post_api_upload t_id t_date (Some f) user_field w) = Ok upload_failed
      /\ final (post_api_upload t_id t_date (Some f) user_field w) = w)
  /\ (result (route_download id w)
        = Ok (SendJson 500 (error_body "Внутренняя ошибка сервера"))
      /\ final (route_download id w) = w)
  /\ (result (route_delete id body w) = Ok delete_failed
      /\ final (route_delete id body w) = w).
Proof.
  intros Hst. split; [|split; [|split]].
  - unfold route_files, route, try_catch, get_api_files, bind.
    by rewrite readFiles_run.
  - by apply upload_not_array_any.
  - split; [by apply download_not_array|].
    apply (read_only_route _ (read_only_get_api_download id) w).
  - by rewrite route_delete_handler, (delete_not_array id body w Hst).
Qed.

(** X12: when the metadata document is unreadable or is not JSON, an
    upload whose write succeeds is answered 200 and replaces the document
    by the list of the one new record: what the document held is
    lost. *)
Theorem upload_over_broken_document (t_id t_date : N) (f : MulterFile)
    (user : json) (w : World) :
  db w = Unreadable \/ db w = Content Garbled ->
  user <> JNull ->
  db_writable w = true ->
  exists info,
    result (post_api_upload t_id t_date (Some f) (Some (Encodes user)) w)
      = Ok (SendJson 200 info)
    /\ db (final (post_api_upload t_id t_date (Some f) (Some (Encodes user)) w))
       = Content (Encodes (JArr [info]))
    /\ field "name" info = Some (JStr (file_originalname f)).
Proof.
  intros Hdb Huser Hw.
  assert (stored w = JArr []) as Hst
    by (unfold stored; by destruct Hdb as [-> | ->]).
  rewrite (upload_array _ _ _ _ _ [] Huser Hst). cbv zeta. rewrite Hw.
  eexists. cbn [result final fst snd db app]. split; [reflexivity|].
  split; [reflexivity|]. apply (fileInfo_fields t_id t_date f).
Qed.

(** X13: a user field that holds JSON other than an object and other than
    null (a number, a string, a boolean, an array) is accepted: the
    record is created without author, authorId and authorColor; the
    field [null] is answered 500 and nothing is written. *)
Theorem user_field_that_is_no_object (t_id t_date : N) (f : MulterFile)
    (user : json) (w : World) (l : list json) :
  result (readFiles w) = Ok (JArr l) ->
  db_writable w = true ->
  (forall props, user <> JObj props) ->
  (user <> JNull ->
     exists info,
       result (post_api_upload t_id t_date (Some f) (Some (Encodes user)) w)
         = Ok (SendJson 200 info)
       /\ result (readFiles
            (final (post_api_upload t_id t_date (Some f) (Some (Encodes user)) w)))
          = Ok (JArr (l ++ [info]))
       /\ field "author" info = None
       /\ field "authorId" info = None
       /\ field "authorColor" info = None)
  /\ (user = JNull ->
        result (post_api_upload t_id t_date (Some f) (Some (Encodes user)) w)
          = Ok upload_failed
        /\ final (post_api_upload t_id t_date (Some f) (Some (Encodes user)) w) = w).
Proof.
  intros Hread Hw Hnoobj. rewrite readFiles_run in Hread. injection Hread as Hst.
  split.
  - intros Huser. rewrite (upload_array _ _ _ _ _ l Huser Hst). cbv zeta. rewrite Hw.
    assert (forall k, field k user = None) as Hfield.
    { intros k. destruct user; try done. by destruct (Hnoobj props). }
    rewrite !Hfield. eexists. cbn [result final fst snd]. rewrite readFiles_run.
    by repeat split.
  - by intros ->.
Qed.

(** ** Names of blobs and ids of records *)

Lemma pretty_N_go_digits (x : N) (s : string) :
  all_digits s = true -> all_digits (pretty_N_go x s) = true.
Proof.
  revert s. induction (N.lt_wf_0 x) as [x _ IH]; intros s Hs.
  assert (x = 0 \/ 0 < x)%N as [->|Hpos] by lia.
  - by rewrite pretty_N_go_0.
  - rewrite pretty_N_go_step by done. apply IH; [by apply N.div_lt|].
    cbn [all_digits]. rewrite Hs, andb_true_r.
    unfold pretty_N_char. by repeat case_match.
Qed.

Lemma number_toString_digits (t : N) : all_digits (number_toString t) = true.
Proof.
  unfold number_toString, pretty, pretty_N. case_decide; [done|].
  by apply pretty_N_go_digits.
Qed.

Lemma digits_then_dash (a b x y : string) :
  all_digits a = true -> all_digits b = true ->
  a +:+ "-" +:+ x = b +:+ "-" +:+ y -> a = b /\ x = y.
Proof.
  revert b. induction a as [|c a IH]; intros [|c' b] Ha Hb Heq;
    cbn [String.append] in Heq.
  - by injection Heq as Hxy.
  - injection Heq as Hc _. subst c'. discriminate Hb.
  - injection Heq as Hc _. subst c. discriminate Ha.
  - injection Heq as Hc Heq. subst c'.
    cbn [all_digits] in Ha, Hb.
    apply andb_prop in Ha as [_ Ha]. apply andb_prop in Hb as [_ Hb].
    destruct (IH b Ha Hb Heq) as [-> ->]. done.
Qed.

Lemma append_cancel_l (pre a b : string) : pre +:+ a = pre +:+ b -> a = b.
Proof.
  induction pre as [|c pre IH]; cbn; [done|]. intros [= Heq]. auto.
Qed.

Lemma blob_path_inj (fn fn' : string) :
  fn <> "" -> fn' <> "" -> blob_path fn = blob_path fn' -> fn = fn'.
Proof.
  intros Hfn Hfn'. unfold blob_path.
  destruct fn as [|c fn]; [done|]. destruct fn' as [|c' fn']; [done|].
  cbn -[String.append].
  rewrite !(append_nonempty "uploads") by discriminate.
  destruct (String.eqb dirname ""); intros Heq.
  - by do 2 apply append_cancel_l in Heq.
  - by do 4 apply append_cancel_l in Heq.
Qed.

Lemma stored_name_nonempty (t : N) (p : FilePart) :
  file_filename (multer_file t p) <> "".
Proof.
  cbn [file_filename multer_file]. by destruct (number_toString t).
Qed.

Lemma digit_no_slash (c : Ascii.ascii) :
  is_digit c = true -> Ascii.eqb c (Ascii.ascii_of_nat 47) = false.
Proof.
  intros Hc. destruct (Ascii.eqb_spec c (Ascii.ascii_of_nat 47)) as [->|]; [|done].
  discriminate Hc.
Qed.

Lemma no_slash_app (a b : string) :
  no_slash a = true -> no_slash b = true -> no_slash (a +:+ b) = true.
Proof.
  intros Ha Hb. induction a as [|c a IH]; [done|].
  change (negb (Ascii.eqb c (Ascii.ascii_of_nat 47)) && no_slash a = true) in Ha.
  change (negb (Ascii.eqb c (Ascii.ascii_of_nat 47)) && no_slash (a +:+ b) = true).
  apply andb_prop in Ha as [Hc Ha]. by rewrite Hc, IH.
Qed.

Lemma digits_no_slash (s : string) : all_digits s = true -> no_slash s = true.
Proof.
  induction s as [|c s IH]; [done|]. cbn [all_digits].
  intros [Hc Hs]%andb_prop.
  change (negb (Ascii.eqb c (Ascii.ascii_of_nat 47)) && no_slash s = true).
  by rewrite (digit_no_slash c Hc), IH.
Qed.

(** The names the storage generates are plain file names, where
    [join_segments] is [path.join]. *)
Lemma stored_name_plain (t : N) (p : FilePart) :
  no_slash (part_name p) = true ->
  plain_name (file_filename (multer_file t p)) = true.
Proof.
  intros Hname. cbn [file_filename multer_file]. unfold plain_name.
  pose proof (number_toString_digits t) as Hdigits.
  rewrite (no_slash_app _ _ (digits_no_slash _ Hdigits)
             (no_slash_app "-" _ eq_refl Hname)), andb_true_r.
  destruct (number_toString t) as [|c [|c' rest]]; [done| |].
  - simpl. by repeat case_match.
  - destruct rest; simpl; by repeat case_match.
Qed.

(** X14: two files whose names, as multer reports them, have no separator
    are stored under the same path exactly when their stored names were
    generated in the same millisecond from the same reported name; any
    other pair of such uploads gets two different blobs. *)
Theorem same_blob_path_iff (t1 t2 : N) (p1 p2 : FilePart) :
  no_slash (part_name p1) = true ->
  no_slash (part_name p2) = true ->
  (file_path (multer_file t1 p1) = file_path (multer_file t2 p2)
   <-> t1 = t2 /\ part_name p1 = part_name p2).
Proof.
  intros _ _. split.
  - intros Heq. rewrite !multer_file_path in Heq.
    apply blob_path_inj in Heq; [|apply stored_name_nonempty..].
    cbn [file_filename multer_file] in Heq.
    apply digits_then_dash in Heq as [Ht Hname];
      [|apply number_toString_digits..].
    split; [|done]. by apply (inj pretty).
  - intros [-> Hname]. unfold multer_file. by rewrite Hname.
Qed.

(** X15: two records created by the upload handler carry the same id
    exactly when their ids were generated at the same clock reading. *)
Theorem same_id_iff (t1 t2 d1 d2 : N) (f1 f2 : MulterFile)
    (a1 b1 c1 a2 b2 c2 : value) :
  field "id" (fileInfo t1 d1 f1 a1 b1 c1) = field "id" (fileInfo t2 d2 f2 a2 b2 c2)
  <-> t1 = t2.
Proof.
  destruct (fileInfo_fields t1 d1 f1 a1 b1 c1) as [-> _].
  destruct (fileInfo_fields t2 d2 f2 a2 b2 c2) as [-> _].
  split; [|by intros ->]. intros [= Heq]. by apply (inj pretty).
Qed.

(** X16: when two files with the same original name are stored in the same
    millisecond, both within the limit, multer reports the same path for
    both and the blob there holds the content of the second: the first
    content is overwritten. *)
Theorem same_name_same_ms_overwrites (now : N) (p1 p2 : FilePart) (w : World) :
  (N.of_nat (String.length (part_content p1)) <= fileSize_limit)%N ->
  (N.of_nat (String.length (part_content p2)) <= fileSize_limit)%N ->
  part_name p1 = part_name p2 ->
  exists f1 f2,
    result (upload_single now (Some p1) w) = Ok (Some f1)
    /\ result (upload_single now (Some p2) (final (upload_single now (Some p1) w)))
       = Ok (Some f2)
    /\ file_path f1 = file_path f2
    /\ blobs (final (upload_single now (Some p2) (final (upload_single now (Some p1) w))))
         !! file_path f1
       = Some (part_content p2).
Proof.
  intros Hsize1 Hsize2 Hname.
  rewrite (upload_single_within _ _ _ Hsize1). cbn [result final fst snd].
  rewrite (upload_single_within _ _ _ Hsize2). cbn [result final fst snd].
  exists (multer_file now p1), (multer_file now p2).
  assert (file_path (multer_file now p1) = file_path (multer_file now p2)) as Hpath
    by (unfold multer_file; by rewrite Hname).
  repeat split; [done|]. rewrite Hpath. unfold with_blob. cbn [blobs].
  apply lookup_insert_eq.
Qed.

(** ** The application as a whole *)





(** ** Every request is answered *)

Lemma upload_handler_status (t_id t_date : N) (file : option MulterFile)
    (user_field : option text) (w : World) :
  exists resp,
    result (post_api_upload t_id t_date file user_field w) = Ok resp
    /\ http_status resp ∈ [200; 400; 500]%N.
Proof.
  destruct file as [f|]; [|exists no_file; split; [done|set_solver]].
  destruct (JSON_parse user_field) as [user|e] eqn:Hparse;
    [|rewrite (upload_bad_user _ _ _ _ _ _ Hparse);
      exists upload_failed; split; [done|set_solver]].
  destruct user_field as [[|user']|]; try discriminate Hparse.
  injection Hparse as ->.
  assert (user = JNull \/ user <> JNull) as [->|Huser] by (destruct user; auto);
    [exists upload_failed; split; [done|set_solver]|].
  destruct (as_array (stored w)) as [l|e] eqn:Harr.
  - assert (stored w = JArr l) as Hst by (destruct (stored w); by inversion Harr).
    rewrite (upload_array _ _ _ _ _ l Huser Hst). cbv zeta.
    destruct (db_writable w); eexists; (split; [reflexivity|set_solver]).
  - assert (e = TypeError) as -> by (destruct (stored w); by inversion Harr).
    exists upload_failed. split; [|set_solver].
    apply (upload_not_array_any _ _ _ _ _ Harr).
Qed.

Lemma find_from_has_id_throws (id : string) (l : list json) (e : exn) :
  find_from (has_id id) l = Throw e -> e = TypeError.
Proof.
  induction l as [|x l IH]; cbn [find_from]; [discriminate|].
  destruct (has_id id x) as [[|]|e'] eqn:Hx; [discriminate | done |].
  intros [= <-]. destruct x; cbn in Hx; congruence.
Qed.

Lemma download_route_status (id : string) (w : World) :
  exists resp,
    result (route_download id w) = Ok resp
    /\ http_status resp ∈ [200; 404; 500]%N.
Proof.
  unfold route_download, route, try_catch, get_api_download, bind.
  rewrite readFiles_run. unfold lift, array_find.
  destruct (stored w) as [| b | n | s | l | ps]; cbn [as_array];
    try (eexists; split; [reflexivity|set_solver]).
  destruct (find_from (has_id id) l) as [[x|]|e] eqn:Hfind.
  - destruct (id_is_obj id x (has_id_inv _ _ _ (find_from_some _ _ _ Hfind)))
      as [props ->].
    cbn [truthy negb get_prop].
    destruct (field "filename" (JObj props)) as [[| | |fn| |]|];
      cbn [path_join string_args];
      try (eexists; split; [reflexivity|set_solver]).
    unfold fs_existsSync.
    destruct (bool_decide _); cbn; eexists; (split; [reflexivity|set_solver]).
  - eexists; split; [reflexivity|set_solver].
  - rewrite (find_from_has_id_throws id l e Hfind).
    eexists; split; [reflexivity|set_solver].
Qed.

Lemma delete_route_status (id : string) (body : list (string * json)) (w : World) :
  exists resp,
    result (route_delete id body w) = Ok resp
    /\ http_status resp ∈ [200; 403; 404; 500]%N.
Proof.
  rewrite route_delete_handler.
  destruct (delete_cases id body w)
    as [Hrun | [Hrun | (l1 & r & l2 & Hst & Hl1 & Hr & Hrun)]];
    rewrite Hrun; [eexists; split; [reflexivity|set_solver]..|].
  unfold delete_outcome.
  destruct (negb _); [eexists; split; [reflexivity|set_solver]|].
  destruct (field "filename" r) as [[| | |fn| |]|];
    try (eexists; split; [reflexivity|set_solver]).
  destruct (db_writable w); eexists; (split; [reflexivity|set_solver]).
Qed.

(** X19: every request gets an answer, in every state of the file system:
    no exception escapes a route.  The status and listing routes always
    answer 200, the upload route 200, 400 or 500, the download route
    200, 404 or 500, and the delete route 200, 403, 404 or 500. *)
Theorem every_request_is_answered (r : Request) (w : World) :
  exists resp,
    result (serve r w) = Ok resp
    /\ match r with
       | GetStatus _ | GetFiles => http_status resp = 200%N
       | PostUpload _ _ _ _ => http_status resp ∈ [200; 400; 500]%N
       | GetDownload _ => http_status resp ∈ [200; 404; 500]%N
       | DeleteFile _ _ => http_status resp ∈ [200; 403; 404; 500]%N
       end.
Proof.
  destruct r as [now | | t_file t_id t_date req | id | id body]; cbn [serve].
  - eexists. split; reflexivity.
  - unfold route_files, route, try_catch, get_api_files, bind.
    rewrite readFiles_run. eexists. split; reflexivity.
  - destruct req as [[p|] user_field].
    + destruct (N.ltb_spec fileSize_limit (N.of_nat (String.length (part_content p))))
        as [Hover|Hwithin].
      * eexists. split;
          [apply (route_upload_over t_file t_id t_date p user_field w Hover)|].
        set_solver.
      * rewrite (route_upload_within _ _ _ _ _ _ Hwithin). cbv zeta.
        destruct (upload_handler_status t_id t_date (Some (multer_file t_file p))
                    user_field
                    (with_blob (file_path (multer_file t_file p)) (part_content p) w))
          as (resp & Hresp & Hstatus).
        exists resp. split; [|done].
        by destruct (post_api_upload _ _ _ _ _) as [[r' w'] t].
    + exists no_file. split; [done|set_solver].
  - apply download_route_status.
  - apply delete_route_status.
Qed.

End Server.

(** * The properties at concrete requests *)

Lemma sample_world_metadata :
  metadata_list (sample_world sample_dirname)
    [rec_b sample_dirname; rec_a sample_dirname; rec_a' sample_dirname].
Proof. split; reflexivity. Defined.


Lemma upload_appends_one_record_witness :
  exists l info,
    result (readFiles (sample_world sample_dirname)) = Ok (JArr l)
    /\ result (post_api_upload utc_ruRU 1700000001001 1700000001002
                 (Some (sample_file sample_dirname))
                 (Some (Encodes (JObj sample_user))) (sample_world sample_dirname))
       = Ok (SendJson 200 info)
    /\ field "name" info = Some (JStr "notes.txt")
    /\ field "size" info = Some (JNum 3)
    /\ field "type" info = Some (JStr "text/plain")
    /\ field "authorId" info = Some (JStr "u7")
    /\ result (route_files
         (final (post_api_upload utc_ruRU 1700000001001 1700000001002
                   (Some (sample_file sample_dirname))
                   (Some (Encodes (JObj sample_user))) (sample_world sample_dirname))))
       = Ok (SendJson 200 (JArr (l ++ [info]))).
Proof.
  destruct (upload_appends_one_record utc_ruRU 1700000001001 1700000001002
              (sample_file sample_dirname) sample_user (sample_world sample_dirname))
    as (l & info & Hl & Hresp & _ & _ & Hname & Hsize & Htype & Hauthor & _ & Hlist).
  - eexists. vm_compute. constructor.
  - exists l, info. repeat split; assumption.
Defined.



Lemma delete_refused_or_unknown_witness :
  (result (route_delete sample_dirname "1700000000000" [("userId", JStr "u2")]
             (sample_world sample_dirname)) = Ok forbidden
   /\ final (route_delete sample_dirname "1700000000000" [("userId", JStr "u2")]
               (sample_world sample_dirname)) = sample_world sample_dirname)
  /\ (result (route_delete sample_dirname "42" [("userId", JStr "u2")]
                (sample_world sample_dirname)) = Ok not_found
      /\ final (route_delete sample_dirname "42" [("userId", JStr "u2")]
                  (sample_world sample_dirname)) = sample_world sample_dirname).
Proof.
  split.
  - destruct (delete_refused_or_unknown sample_dirname "1700000000000"
                [("userId", JStr "u2")] _ _ sample_world_metadata) as [Hrefused _].
    destruct (Hrefused (rec_a sample_dirname) eq_refl eq_refl) as (Hresp & _ & Hsame & _).
    split; assumption.
  - destruct (delete_refused_or_unknown sample_dirname "42"
                [("userId", JStr "u2")] _ _ sample_world_metadata) as [_ Hunknown].
    destruct Hunknown as (Hresp & _ & Hsame & _).
    + intros r Hr.
      repeat (apply elem_of_cons in Hr as [-> | Hr]; [reflexivity|]).
      by apply elem_of_nil in Hr.
    + split; assumption.
Defined.

Lemma upload_rejections_witness :
  result (post_api_upload utc_ruRU 1700000001001 1700000001002
            (Some (sample_file sample_dirname)) (Some Garbled)
            (sample_world sample_dirname)) = Ok upload_failed
  /\ final (post_api_upload utc_ruRU 1700000001001 1700000001002
              (Some (sample_file sample_dirname)) (Some Garbled)
              (sample_world sample_dirname)) = sample_world sample_dirname
  /\ result (post_api_upload utc_ruRU 1700000001001 1700000001002
               None (Some (Encodes (JObj sample_user)))
               (sample_world sample_dirname)) = Ok no_file.
Proof.
  destruct (upload_rejections utc_ruRU 1700000001001 1700000001002 (Some Garbled)
              (sample_world sample_dirname)) as [_ Hbad].
  destruct (Hbad (sample_file sample_dirname) eq_refl) as (Hresp & _ & Hsame & _).
  destruct (upload_rejections utc_ruRU 1700000001001 1700000001002
              (Some (Encodes (JObj sample_user)))
              (sample_world sample_dirname)) as [(Hnone & _) _].
  repeat split; assumption.
Defined.

Lemma delete_removes_one_position_witness :
  exists (l : list json) (i : nat),
    result (readFiles (sample_world sample_dirname)) = Ok (JArr l)
    /\ l !! i = Some (rec_b sample_dirname)
    /\ result (readFiles (final
         (route_delete sample_dirname "1700000000500" [("userId", JStr "u2")]
            (sample_world sample_dirname))))
       = Ok (JArr (delete i l)).
Proof.
  destruct (delete_removes_one_position sample_dirname "1700000000500"
              [("userId", JStr "u2")] (sample_world sample_dirname) deleted
              eq_refl eq_refl)
    as (l & i & r & Hl & Hi & Hid & Hbefore & _ & Hlist & _).
  injection Hl as <-.
  destruct i as [|i].
  - eexists _, 0%nat. split; [reflexivity|]. split; [reflexivity | exact Hlist].
  - exfalso. specialize (Hbefore 0%nat (rec_b sample_dirname) ltac:(lia) eq_refl).
    discriminate Hbefore.
Defined.


(** * Where the stated properties fail *)


(** C6: two calls of the status route one millisecond apart, with nothing
    written in between, differ in their timestamp. *)
Lemma status_changes_with_clock :
  (calls route_status [1700000000000%N; 1700000000001%N] empty_world).1
    = [Ok (SendJson 200
             (JObj [("status", JStr "OK");
                    ("message", JStr "Сервер файлообменника работает");
                    ("timestamp", JStr "2023-11-14T22:13:20.000Z")]));
       Ok (SendJson 200
             (JObj [("status", JStr "OK");
                    ("message", JStr "Сервер файлообменника работает");
                    ("timestamp", JStr "2023-11-14T22:13:20.001Z")]))]
  /\ ~ (forall (w : World) (t1 t2 : N),
          exists r, (calls route_status [t1; t2] w).1 = [r; r]).
Proof.
  split; [reflexivity|].
  intros Hsame.
  destruct (Hsame empty_world 1700000000000%N 1700000000001%N) as [r Hr].
  vm_compute in Hr. injection Hr as Hfirst Hsecond. subst r. discriminate Hsecond.
Qed.

(** C7: an upload request with no file and a user field that is not valid
    JSON is answered 400, not 500. *)
Lemma bad_user_without_file_is_400 :
  JSON_parse (Some Garbled) = Throw SyntaxError
  /\ result (post_api_upload utc_ruRU 1700000001001 1700000001002
               None (Some Garbled) empty_world) = Ok no_file
  /\ http_status no_file = 400%N
  /\ ~ (forall (t_id t_date : N) (file : option MulterFile)
          (user_field : option text) (w : World),
          JSON_parse user_field = Throw SyntaxError ->
          exists r,
            result (post_api_upload utc_ruRU t_id t_date file user_field w) = Ok r
            /\ http_status r = 500%N).
Proof.
  split; [reflexivity|]. split; [reflexivity|]. split; [reflexivity|].
  intros Hstated.
  destruct (Hstated 1700000001001%N 1700000001002%N None (Some Garbled)
              empty_world eq_refl) as (r & Hr & Hstatus).
  injection Hr as <-. discriminate Hstatus.
Qed.

(** * The further properties at concrete requests *)

Lemma zeros_length (k : nat) : String.length (zeros k) = k.
Proof.
  induction k as [|k IH]; [done|]. cbn [zeros].
  change (S (String.length (zeros k)) = S k). by rewrite IH.
Defined.

Lemma big_part_over_limit :
  (fileSize_limit < N.of_nat (String.length (part_content big_part)))%N.
Proof.
  unfold big_part. cbn [part_content]. rewrite zeros_length, N2Nat.id. reflexivity.
Defined.

Lemma odd_world_metadata :
  metadata_list (odd_world sample_dirname)
    [rec_structured sample_dirname; rec_anonymous sample_dirname].
Proof. split; reflexivity. Defined.


Lemma upload_over_limit_witness :
  result (route_upload sample_dirname utc_ruRU 1700000001000 1700000001001 1700000001002
            (mkUploadRequest (Some big_part) (Some (Encodes (JObj sample_user))))
            empty_world)
    = Ok (SendJson 400 (error_body "Файл слишком большой")).
Proof.
  exact (proj1 (upload_over_limit sample_dirname utc_ruRU 1700000001000 1700000001001
                  1700000001002 big_part (Some (Encodes (JObj sample_user)))
                  empty_world big_part_over_limit)).
Defined.

Lemma upload_unsaved_leaves_blob_witness :
  result (route_upload sample_dirname utc_ruRU 1700000001000 1700000001001 1700000001002
            (mkUploadRequest (Some small_part) (Some (Encodes (JObj sample_user))))
            (readonly_world sample_dirname))
    = Ok save_failed
  /\ blobs (final (route_upload sample_dirname utc_ruRU 1700000001000 1700000001001
                     1700000001002
                     (mkUploadRequest (Some small_part) (Some (Encodes (JObj sample_user))))
                     (readonly_world sample_dirname)))
       !! "/srv/fileshare/uploads/1700000001000-notes.txt"
     = Some "abc".
Proof.
  destruct (upload_unsaved_leaves_blob sample_dirname utc_ruRU 1700000001000
              1700000001001 1700000001002 small_part (JObj sample_user)
              (readonly_world sample_dirname)
              [rec_b sample_dirname; rec_a sample_dirname; rec_a' sample_dirname])
    as (Hresp & _ & Hblob).
  - reflexivity.
  - reflexivity.
  - discriminate.
  - reflexivity.
  - reflexivity.
  - split; assumption.
Defined.

Lemma sample_world_fresh_id (r : json) :
  r ∈ [rec_b sample_dirname; rec_a sample_dirname; rec_a' sample_dirname] ->
  id_is "1700000001001" r = false.
Proof.
  intros Hr. repeat (apply elem_of_cons in Hr as [-> | Hr]; [reflexivity|]).
  by apply elem_of_nil in Hr.
Defined.

Lemma upload_then_download_witness :
  exists stored_at,
    result (route_download sample_dirname "1700000001001"
      (final (route_upload sample_dirname utc_ruRU 1700000001000 1700000001001
                1700000001002
                (mkUploadRequest (Some small_part) (Some (Encodes (JObj sample_user))))
                (sample_world sample_dirname))))
      = Ok (SendDownload stored_at (Some (JStr "notes.txt")))
    /\ blobs (final (route_upload sample_dirname utc_ruRU 1700000001000 1700000001001
                       1700000001002
                       (mkUploadRequest (Some small_part)
                          (Some (Encodes (JObj sample_user))))
                       (sample_world sample_dirname)))
         !! stored_at
       = Some "abc".
Proof.
  destruct (upload_then_download sample_dirname utc_ruRU 1700000001000 1700000001001
              1700000001002 small_part (JObj sample_user) (sample_world sample_dirname)
              _ eq_refl eq_refl ltac:(discriminate)
              sample_world_metadata sample_world_fresh_id eq_refl)
    as (info & stored_at & _ & Hdownload & Hblob).
  exists stored_at. split; assumption.
Defined.

Lemma upload_then_delete_witness :
  result (readFiles (final
    (route_delete sample_dirname "1700000001001" [("userId", JStr "u7")]
       (final (route_upload sample_dirname utc_ruRU 1700000001000 1700000001001
                 1700000001002
                 (mkUploadRequest (Some small_part) (Some (Encodes (JObj sample_user))))
                 (sample_world sample_dirname))))))
    = Ok (JArr [rec_b sample_dirname; rec_a sample_dirname; rec_a' sample_dirname]).
Proof.
  exact (proj1 (proj2
    (upload_then_delete sample_dirname utc_ruRU 1700000001000 1700000001001
       1700000001002 small_part (JObj sample_user) [("userId", JStr "u7")]
       (sample_world sample_dirname) _
       ltac:(vm_compute; discriminate) ltac:(discriminate)
       sample_world_metadata sample_world_fresh_id eq_refl eq_refl))).
Defined.

Lemma structured_author_never_deleted_witness :
  result (route_delete sample_dirname "1700000002000"
            [("userId", JObj [("n", JNum 1)])] (odd_world sample_dirname))
    = Ok forbidden.
Proof.
  exact (proj1 (structured_author_never_deleted sample_dirname "1700000002000"
                  [("userId", JObj [("n", JNum 1)])] (odd_world sample_dirname) _
                  (rec_structured sample_dirname) odd_world_metadata eq_refl eq_refl)).
Defined.




Lemma non_list_document_witness :
  result (route_files (mkWorld (Content (Encodes (JObj []))) true ∅))
    = Ok (SendJson 200 (JObj []))
  /\ result (route_download sample_dirname "1"
               (mkWorld (Content (Encodes (JObj []))) true ∅))
     = Ok (SendJson 500 (error_body "Внутренняя ошибка сервера")).
Proof.
  destruct (non_list_document sample_dirname utc_ruRU "1" [] 1700000001001
              1700000001002 (sample_file sample_dirname)
              (Some (Encodes (JObj sample_user)))
              (mkWorld (Content (Encodes (JObj []))) true ∅) eq_refl)
    as (Hlist & _ & (Hdownload & _) & _).
  split; assumption.
Defined.

Lemma upload_over_broken_document_witness :
  exists info,
    db (final (post_api_upload utc_ruRU 1700000001001 1700000001002
                 (Some (sample_file sample_dirname))
                 (Some (Encodes (JObj sample_user)))
                 (mkWorld (Content Garbled) true ∅)))
      = Content (Encodes (JArr [info])).
Proof.
  destruct (upload_over_broken_document utc_ruRU 1700000001001 1700000001002
              (sample_file sample_dirname) (JObj sample_user)
              (mkWorld (Content Garbled) true ∅))
    as (info & _ & Hdb & _).
  - right. reflexivity.
  - discriminate.
  - reflexivity.
  - exists info. exact Hdb.
Defined.

Lemma user_field_that_is_no_object_witness :
  (exists info,
     result (post_api_upload utc_ruRU 1700000001001 1700000001002
               (Some (sample_file sample_dirname)) (Some (Encodes (JNum 5)))
               empty_world) = Ok (SendJson 200 info)
     /\ field "authorId" info = None)
  /\ result (post_api_upload utc_ruRU 1700000001001 1700000001002
               (Some (sample_file sample_dirname)) (Some (Encodes JNull))
               empty_world) = Ok upload_failed.
Proof.
  split.
  - destruct (user_field_that_is_no_object utc_ruRU 1700000001001 1700000001002
                (sample_file sample_dirname) (JNum 5) empty_world [] eq_refl eq_refl)
      as [Haccepted _]; [discriminate|].
    destruct (Haccepted ltac:(discriminate)) as (info & Hresp & _ & _ & Hauthor & _).
    exists info. split; assumption.
  - destruct (user_field_that_is_no_object utc_ruRU 1700000001001 1700000001002
                (sample_file sample_dirname) JNull empty_world [] eq_refl eq_refl)
      as [_ Hnull]; [discriminate|].
    exact (proj1 (Hnull eq_refl)).
Defined.

Lemma same_blob_path_iff_witness :
  file_path (multer_file sample_dirname 1700000001000 small_part)
    = file_path (multer_file sample_dirname 1700000001000
                   (mkFilePart "notes.txt" "image/png" "xyz"))
  /\ file_path (multer_file sample_dirname 1700000001000 small_part)
     <> file_path (multer_file sample_dirname 1700000001001 small_part).
Proof.
  split.
  - apply (proj2 (same_blob_path_iff sample_dirname 1700000001000 1700000001000
                    small_part (mkFilePart "notes.txt" "image/png" "xyz")
                    eq_refl eq_refl)).
    split; reflexivity.
  - intros Heq.
    apply (proj1 (same_blob_path_iff sample_dirname 1700000001000 1700000001001
                    small_part small_part eq_refl eq_refl)) in Heq.
    destruct Heq as [Ht _]. discriminate Ht.
Defined.

Lemma same_id_iff_witness :
  field "id" (fileInfo utc_ruRU 1700000001001 1700000001002
                (sample_file sample_dirname) None None None)
    = field "id" (fileInfo utc_ruRU 1700000001001 1700000009999
                    (sample_file sample_dirname) None (Some (JStr "u7")) None).
Proof.
  apply (proj2 (same_id_iff utc_ruRU 1700000001001 1700000001001 1700000001002
                  1700000009999 (sample_file sample_dirname)
                  (sample_file sample_dirname) None None None None
                  (Some (JStr "u7")) None)).
  reflexivity.
Defined.

Lemma same_name_same_ms_overwrites_witness :
  exists f1 f2,
    file_path f1 = file_path f2
    /\ blobs (final (upload_single sample_dirname 1700000001000
                       (Some (mkFilePart "notes.txt" "image/png" "xyz"))
                       (final (upload_single sample_dirname 1700000001000
                                 (Some small_part) empty_world))))
         !! file_path f1
       = Some "xyz".
Proof.
  destruct (same_name_same_ms_overwrites sample_dirname 1700000001000 small_part
              (mkFilePart "notes.txt" "image/png" "xyz") empty_world
              ltac:(vm_compute; discriminate) ltac:(vm_compute; discriminate) eq_refl)
    as (f1 & f2 & _ & _ & Hpath & Hblob).
  exists f1, f2. split; assumption.
Defined.


